(** * The edgexfoundry logging client (logger.go), embedded and verified

    The client echoes every leveled message on standard output and then
    hands it either to a local file sink or to a remote collector.  All
    of its work is effects on the outside world, so the embedding is a
    small state-and-panic monad over

    - an abstract operating system ([Env]): file system calls, the clock,
      the JSON encoder, the URL parser and the HTTP transport;
    - a heap of [log.Logger] objects, shared through the pointers stored
      in the client (the methods have value receivers, the loggers are
      reached through pointers and are mutated in place);
    - the text written to standard output, the record of system calls
      issued, and the pool of goroutines launched. *)

From Stdlib Require Import ZArith String Ascii List Lia.
From stdpp Require Import base option list strings pretty gmap.

Open Scope string_scope.
Open Scope list_scope.
Open Scope Z_scope.

(** ** Strings: [filepath.Split] and [strings.TrimRight] *)

Definition slash : ascii := "/"%char.

Definition is_slash (c : ascii) : bool := Ascii.eqb c slash.

(** [filepath.Split] on a Unix path: the text up to and including the
    last separator, and the text after it. *)
Fixpoint filepath_Split (path : string) : string * string :=
  match path with
  | EmptyString => (EmptyString, EmptyString)
  | String c rest =>
      let (dir, file) := filepath_Split rest in
      match dir with
      | String _ _ => (String c dir, file)
      | EmptyString =>
          if is_slash c then (String c EmptyString, file)
          else (EmptyString, String c file)
      end
  end.

Fixpoint in_cutset (c : ascii) (cutset : string) : bool :=
  match cutset with
  | EmptyString => false
  | String d rest => Ascii.eqb c d || in_cutset c rest
  end.

(** [strings.TrimRight s cutset]: [s] without its trailing characters
    that belong to [cutset]. *)
Fixpoint strings_TrimRight (s cutset : string) : string :=
  match s with
  | EmptyString => EmptyString
  | String c rest =>
      match strings_TrimRight rest cutset with
      | EmptyString => if in_cutset c cutset then EmptyString else String c EmptyString
      | String d rest' => String c (String d rest')
      end
  end.

(** The newline character. *)
Definition nl : string := String "010"%char EmptyString.

(** Go's [len(s) > 0]. *)
Definition nonempty (s : string) : bool :=
  match s with EmptyString => false | String _ _ => true end.

(** ** Values of the outside world *)

(** A Go [error] value: its text ([err.Error()]) and whether
    [os.IsNotExist] recognises it. *)
Record error := Err { Error_ : string; not_exist : bool }.

(** [os.IsNotExist(err)]; a nil error is not one. *)
Definition os_IsNotExist (err : option error) : bool :=
  match err with
  | None => false
  | Some e => not_exist e
  end.

(** [os.ErrInvalid], what the methods of a nil [*os.File] return. *)
Definition ErrInvalid : error := Err "invalid argument" false.

(** An open [*os.File]; the nil pointer is [None] of [option File]. *)
Definition File := nat.

(** Flags of [os.OpenFile] (Linux values). *)
Definition O_WRONLY : Z := 1.
Definition O_CREATE : Z := 64.
Definition O_TRUNC : Z := 512.
Definition O_APPEND : Z := 1024.

(** A Go octal literal of three digits, as in [0766]. *)
Definition octal (a b c : Z) : Z := a * 64 + b * 8 + c.

(** Flags of the [log] package. *)
Definition Ldate : Z := 1.
Definition Ltime : Z := 2.
Definition Lmicroseconds : Z := 4.
Definition Llongfile : Z := 8.
Definition Lshortfile : Z := 16.
Definition LUTC : Z := 32.
Definition Lmsgprefix : Z := 64.

(** What the clock shows when a line is logged. *)
Record Time := { t_date : string; t_time : string; t_micro : string }.

(** [support_domain.LogLevel] is a string type ([string(logLevel)] on
    line 64 of logger.go). *)
Definition LogLevel := string.

(** Modelled from the spec: the level constants of the package
    support-domain-go, which is not part of this repository; the spec
    gives the enumeration TRACE, DEBUG, INFO, WARN, ERROR and the wire
    value of WARN as the text WARN. *)
Definition TRACE : LogLevel := "TRACE".
Definition DEBUG : LogLevel := "DEBUG".
Definition INFO : LogLevel := "INFO".
Definition WARN : LogLevel := "WARN".
Definition ERROR : LogLevel := "ERROR".

(** Modelled from the spec: [support_domain.LogEntry], declared in the
    package support-domain-go; the four fields logger.go assigns. *)
Record LogEntry := {
  Level : LogLevel;
  Message : string;
  Labels : list string;
  OriginService : string
}.

(** An [*http.Request] as far as this client fills it in. *)
Record Request := {
  Method : string;
  URL : string;
  Header : list (string * string);
  Body : string
}.

(** An [*http.Response]: the status and the [Close] field. *)
Record Response := { StatusCode : Z; Close : bool }.

(** A system call made by the client, with what the system answered. *)
Inductive call :=
| CStat (name : string) (r : option error)
| CMkdirAll (path : string) (perm : Z) (r : option error)
| COpenFile (name : string) (flag perm : Z) (r : File + error)
| CWrite (f : File) (data : string) (r : option error)
| CClose (f : File) (r : option error)
| CDo (req : Request) (r : Response + error)
| CBodyClose (resp : Response).

(** The [io.Writer]s this program plugs into a logger. *)
Inductive Writer :=
| WStdout
| WFile (f : option File).

(** A [log.Logger]; [out = None] is the nil writer of [&log.Logger{}]. *)
Record Logger := { prefix : string; flag : Z; out : option Writer }.

(** A [*log.Logger]: an address in the heap of loggers. *)
Definition loc := nat.

Record LoggingClient := {
  OwningServiceName : string;
  RemoteEnabled : bool;
  LogTarget : string;
  StdOutLogger : loc;
  FileLogger : loc
}.

(** ** The environment *)

(** Everything the client asks of the operating system and of the Go
    libraries, as functions of an abstract world.  [file_content] is
    an observation used by specifications only, never by the program. *)
Class Env := {
  world : Type;
  os_Stat : world -> string -> option error;
  os_MkdirAll : world -> string -> Z -> world * option error;
  os_OpenFile : world -> string -> Z -> Z -> world * (File + error);
  file_write : world -> File -> string -> world * option error;
  file_close : world -> File -> world * option error;
  file_content : world -> string -> option string;
  clock : world -> Time;
  source_file : string;
  json_Marshal : LogEntry -> string + error;
  url_Parse : string -> option error;
  client_Do : world -> Request -> world * (Response + error);
  body_Close : world -> Response -> world
}.

(** ** Machine state and the monad of the program *)

Section Client.
Context {E : Env}.

Record State := mkState {
  st_world : world;
  st_stdout : list string;
  st_heap : list Logger;
  st_calls : list call;
  st_go : list (LoggingClient * Request)
}.

Definition set_world (w : world) (s : State) : State :=
  mkState w (st_stdout s) (st_heap s) (st_calls s) (st_go s).
Definition set_stdout (o : list string) (s : State) : State :=
  mkState (st_world s) o (st_heap s) (st_calls s) (st_go s).
Definition set_heap (h : list Logger) (s : State) : State :=
  mkState (st_world s) (st_stdout s) h (st_calls s) (st_go s).
Definition set_calls (c : list call) (s : State) : State :=
  mkState (st_world s) (st_stdout s) (st_heap s) c (st_go s).
Definition set_go (g : list (LoggingClient * Request)) (s : State) : State :=
  mkState (st_world s) (st_stdout s) (st_heap s) (st_calls s) g.

(** A computation either returns a value or panics; both leave a state. *)
Inductive Res (A : Type) : Type :=
| Returned (a : A) (s : State)
| Panicked (why : string) (s : State).
Arguments Returned {A} a s.
Arguments Panicked {A} why s.

Definition M (A : Type) : Type := State -> Res A.

Definition ret {A} (a : A) : M A := fun s => Returned a s.

Definition bind {A B} (m : M A) (k : A -> M B) : M B :=
  fun s =>
    match m s with
    | Returned a s' => k a s'
    | Panicked why s' => Panicked why s'
    end.

Definition panic {A} (why : string) : M A := fun s => Panicked why s.

(** [defer d] followed by the rest of the function body: [d] runs when
    the body returns and also when it panics. *)
Definition defer {A} (d : M unit) (body : M A) : M A :=
  fun s =>
    match body s with
    | Returned a s' =>
        match d s' with
        | Returned _ s'' => Returned a s''
        | Panicked why s'' => Panicked why s''
        end
    | Panicked why s' =>
        match d s' with
        | Returned _ s'' => Panicked why s''
        | Panicked why' s'' => Panicked why' s''
        end
    end.

#[global] Instance M_ret : MRet M := @ret.
#[global] Instance M_bind : MBind M := fun A B k m => bind m k.

(** One system call: the world moves on and the call is recorded. *)
Definition syscall {A} (f : world -> world * A) (ev : A -> call) : M A :=
  fun s =>
    let (w, r) := f (st_world s) in
    Returned r (set_calls (st_calls s ++ [ev r]) (set_world w s)).

(** ** Library operations *)

(** [fmt.Println(s)]. *)
Definition fmt_Println (text : string) : M unit :=
  fun s => Returned tt (set_stdout (st_stdout s ++ [text +:+ nl]) s).

Definition os_Stat_ (name : string) : M (option error) :=
  syscall (fun w => (w, os_Stat w name)) (CStat name).

Definition os_MkdirAll_ (path : string) (perm : Z) : M (option error) :=
  syscall (fun w => os_MkdirAll w path perm) (CMkdirAll path perm).

Definition os_OpenFile_ (name : string) (flag perm : Z) : M (File + error) :=
  syscall (fun w => os_OpenFile w name flag perm) (COpenFile name flag perm).

(** [File.Write] of package os: a nil receiver answers [ErrInvalid]. *)
Definition File_Write (f : option File) (data : string) : M (option error) :=
  match f with
  | None => ret (Some ErrInvalid)
  | Some fd => syscall (fun w => file_write w fd data) (CWrite fd data)
  end.

(** [File.Close] of package os: a nil receiver answers [ErrInvalid]. *)
Definition File_Close (f : option File) : M (option error) :=
  match f with
  | None => ret (Some ErrInvalid)
  | Some fd => syscall (fun w => file_close w fd) (CClose fd)
  end.

Definition Writer_Write (w : Writer) (data : string) : M (option error) :=
  match w with
  | WStdout =>
      fun s => Returned None (set_stdout (st_stdout s ++ [data]) s)
  | WFile f => File_Write f data
  end.

Definition has (flags bit : Z) : bool := negb (Z.land flags bit =? 0).

(** The short form of a file name under [Lshortfile]: what follows the
    last slash, a slash in first position not counted. *)
Definition shortfile (file : string) : string :=
  match file with
  | EmptyString => EmptyString
  | String c rest =>
      match fst (filepath_Split rest) with
      | EmptyString => file
      | String _ _ => snd (filepath_Split rest)
      end
  end.

(** The header the [log] package puts before a message. *)
Definition formatHeader (pre : string) (flags : Z) (t : Time)
    (file : string) (line : nat) : string :=
  (if has flags Lmsgprefix then "" else pre) +:+
  (if has flags (Z.lor Ldate (Z.lor Ltime Lmicroseconds)) then
     (if has flags Ldate then t_date t +:+ " " else "") +:+
     (if has flags (Z.lor Ltime Lmicroseconds) then
        t_time t +:+
        (if has flags Lmicroseconds then "." +:+ t_micro t else "") +:+ " "
      else "")
   else "") +:+
  (if has flags (Z.lor Lshortfile Llongfile) then
     (if has flags Lshortfile then shortfile file else file)
     +:+ ":" +:+ pretty line +:+ ": "
   else "") +:+
  (if has flags Lmsgprefix then pre else "").

Definition deref (l : loc) : M Logger :=
  fun s =>
    match st_heap s !! l with
    | Some L => Returned L s
    | None => Panicked "nil pointer dereference" s
    end.

Definition store (l : loc) (L : Logger) : M unit :=
  fun s => Returned tt (set_heap (<[l := L]> (st_heap s)) s).

(** [log.New(out, prefix, flag)] and [&log.Logger{}]: a fresh logger. *)
Definition alloc (L : Logger) : M loc :=
  fun s => Returned (length (st_heap s)) (set_heap (st_heap s ++ [L]) s).

Definition Logger_SetPrefix (l : loc) (p : string) : M unit :=
  L ← deref l; store l {| prefix := p; flag := flag L; out := out L |}.

Definition Logger_SetFlags (l : loc) (f : Z) : M unit :=
  L ← deref l; store l {| prefix := prefix L; flag := f; out := out L |}.

Definition Logger_SetOutput (l : loc) (w : Writer) : M unit :=
  L ← deref l; store l {| prefix := prefix L; flag := flag L; out := Some w |}.

(** [time.Now()], read off the world. *)
Definition time_Now : M Time := fun s => Returned (clock (st_world s)) s.

(** The text one [Println] of logger [L] produces for [msg], called
    from line [line] of logger.go. *)
Definition log_line (L : Logger) (t : Time) (line : nat) (msg : string) : string :=
  formatHeader (prefix L) (flag L) t source_file line +:+ msg +:+ nl.

(** [Logger.Println(msg)] of package log called from line [line]; the result of
    the write is dropped, a nil writer panics. *)
Definition Logger_Println (l : loc) (line : nat) (msg : string) : M unit :=
  L ← deref l;
  t ← time_Now;
  match out L with
  | None => panic "nil pointer dereference"
  | Some w => Writer_Write w (log_line L t line msg);; ret tt
  end.

Definition http_NewRequest (method url body : string) : Request + error :=
  match url_Parse url with
  | Some e => inr e
  | None => inl {| Method := method; URL := url; Header := []; Body := body |}
  end.

Definition Header_Add (key value : string) (r : Request) : Request :=
  {| Method := Method r; URL := URL r;
     Header := Header r ++ [(key, value)]; Body := Body r |}.

(** The [go] statement: the call is parked, the caller goes on. *)
Definition go (lc : LoggingClient) (req : Request) : M unit :=
  fun s => Returned tt (set_go (st_go s ++ [(lc, req)]) s).

(** ** logger.go *)

Definition stdFlags : Z := Z.lor (Z.lor Ldate Ltime) Lshortfile.

Definition NewClient (owningServiceName : string) (isRemote : bool)
    (logTarget : string) : M LoggingClient :=
  so ← alloc {| prefix := ""; flag := stdFlags; out := Some WStdout |};
  fl ← alloc {| prefix := ""; flag := 0; out := None |};
  Logger_SetFlags fl stdFlags;;
  ret {| OwningServiceName := owningServiceName;
         RemoteEnabled := isRemote;
         LogTarget := logTarget;
         StdOutLogger := so;
         FileLogger := fl |}.

Definition verifyLogDirectory (path : string) : M unit :=
  let prefix := fst (filepath_Split path) in
  let dir := strings_TrimRight prefix "/" in
  if nonempty dir then
    err ← os_Stat_ dir;
    if os_IsNotExist err then
      fmt_Println ("Creating directory: " +:+ dir);;
      os_MkdirAll_ dir (octal 7 6 6);;
      ret tt
    else ret tt
  else ret tt.

(** [defer file.Close()]: the receiver is fixed when the statement runs. *)
Definition saveToLogFile (lc : LoggingClient) (prefix message : string)
    : M (option error) :=
  if String.eqb (LogTarget lc) "" then ret None
  else
    verifyLogDirectory (LogTarget lc);;
    r ← os_OpenFile_ (LogTarget lc)
          (Z.lor (Z.lor O_APPEND O_CREATE) O_WRONLY) (octal 6 4 4);
    let file := match r with inl f => Some f | inr _ => None end in
    let err := match r with inl _ => None | inr e => Some e end in
    defer (File_Close file;; ret tt)
      (match err with
       | Some e =>
           fmt_Println ("Error opening log file: " +:+ Error_ e);;
           ret (Some e)
       | None =>
           Logger_SetOutput (FileLogger lc) (WFile file);;
           Logger_SetPrefix (FileLogger lc) (prefix +:+ ": ");;
           Logger_Println (FileLogger lc) 87 message;;
           ret None
       end).

Definition buildLogEntry (lc : LoggingClient) (logLevel : LogLevel)
    (msg : string) (labels : list string) : LogEntry :=
  {| Level := logLevel;
     Message := msg;
     Labels := labels;
     OriginService := OwningServiceName lc |}.

(** [resp.Close = true] changes the local response only; the deferred
    [resp.Body.Close()] runs when the function returns. *)
Definition makeRequest (lc : LoggingClient) (request : Request) : M unit :=
  r ← syscall (fun w => client_Do w request) (CDo request);
  match r with
  | inl resp =>
      defer (syscall (fun w => (body_Close w resp, tt)) (fun _ => CBodyClose resp))
        (ret tt)
  | inr err => fmt_Println (Error_ err)
  end.

Definition sendLog (lc : LoggingClient) (logEntry : LogEntry) : M (option error) :=
  if String.eqb (LogTarget lc) "" then ret None
  else
    match json_Marshal logEntry with
    | inr err => fmt_Println (Error_ err);; ret (Some err)
    | inl reqBody =>
        match http_NewRequest "POST" (LogTarget lc) reqBody with
        | inr err => fmt_Println (Error_ err);; ret (Some err)
        | inl req =>
            let req := Header_Add "Content-Type" "application/json" req in
            go lc req;;
            ret None
        end
    end.

Definition log (lc : LoggingClient) (logLevel : LogLevel) (msg : string)
    (labels : list string) : M (option error) :=
  if negb (RemoteEnabled lc) then saveToLogFile lc logLevel msg
  else
    let logEntry := buildLogEntry lc logLevel msg labels in
    sendLog lc logEntry.

Definition Info (lc : LoggingClient) (msg : string) (labels : list string)
    : M (option error) :=
  Logger_SetPrefix (StdOutLogger lc) "INFO: ";;
  Logger_Println (StdOutLogger lc) 107 msg;;
  log lc INFO msg labels.

Definition Trace (lc : LoggingClient) (msg : string) (labels : list string)
    : M unit :=
  ret tt.

Definition Debug (lc : LoggingClient) (msg : string) (labels : list string)
    : M (option error) :=
  Logger_SetPrefix (StdOutLogger lc) "DEBUG: ";;
  Logger_Println (StdOutLogger lc) 119 msg;;
  log lc DEBUG msg labels.

Definition Warn (lc : LoggingClient) (msg : string) (labels : list string)
    : M (option error) :=
  Logger_SetPrefix (StdOutLogger lc) "WARN: ";;
  Logger_Println (StdOutLogger lc) 126 msg;;
  log lc WARN msg labels.

Definition Error (lc : LoggingClient) (msg : string) (labels : list string)
    : M (option error) :=
  Logger_SetPrefix (StdOutLogger lc) "ERROR: ";;
  Logger_Println (StdOutLogger lc) 133 msg;;
  log lc ERROR msg labels.

End Client.

Arguments Returned {E A} a s.
Arguments Panicked {E A} why s.

(** The four leveled methods that echo and dispatch. *)
Inductive Leveled := MInfo | MDebug | MWarn | MError.

Definition level_of (m : Leveled) : LogLevel :=
  match m with
  | MInfo => INFO
  | MDebug => DEBUG
  | MWarn => WARN
  | MError => ERROR
  end.

(** The prefix the method gives the standard-output logger. *)
Definition tag_of (m : Leveled) : string :=
  match m with
  | MInfo => "INFO: "
  | MDebug => "DEBUG: "
  | MWarn => "WARN: "
  | MError => "ERROR: "
  end.

(** The line of logger.go on which the method calls [Println]. *)
Definition site_of (m : Leveled) : nat :=
  match m with
  | MInfo => 107
  | MDebug => 119
  | MWarn => 126
  | MError => 133
  end.

Definition call_method {E : Env} (m : Leveled)
    : LoggingClient -> string -> list string -> M (option error) :=
  match m with
  | MInfo => Info
  | MDebug => Debug
  | MWarn => Warn
  | MError => Error
  end.

(** The directory [verifyLogDirectory] looks at for a log target. *)
Definition dir_of (path : string) : string :=
  strings_TrimRight (fst (filepath_Split path)) "/".

(** The flags and mode [saveToLogFile] opens the log file with. *)
Definition open_flags : Z := Z.lor (Z.lor O_APPEND O_CREATE) O_WRONLY.
Definition open_perm : Z := octal 6 4 4.

(** A client as [NewClient] makes it and as every operation keeps it:
    two distinct loggers with the standard flags, the first one writing
    to standard output. *)
Definition client_ok {E : Env} (s : State) (lc : LoggingClient) : Prop :=
  StdOutLogger lc <> FileLogger lc /\
  (exists p, st_heap s !! StdOutLogger lc =
     Some {| prefix := p; flag := stdFlags; out := Some WStdout |}) /\
  (exists p o, st_heap s !! FileLogger lc =
     Some {| prefix := p; flag := stdFlags; out := o |}).

(** The state a computation ends in. *)
Definition final {E : Env} {A : Type} (r : Res A) : State :=
  match r with
  | Returned _ s => s
  | Panicked _ s => s
  end.

(** The value a computation returns, if it returns. *)
Definition value {E : Env} {A : Type} (r : Res A) : option A :=
  match r with
  | Returned a _ => Some a
  | Panicked _ _ => None
  end.

(** The calls issued between two states. *)
Definition issued {E : Env} (s s' : State) : list call :=
  drop (length (st_calls s)) (st_calls s').

Definition write_failed (c : call) : bool :=
  match c with
  | CWrite _ _ (Some _) => true
  | _ => false
  end.

(** What the file system owes a file opened for appending: opening
    without [O_TRUNC] keeps the content (an absent file starts empty),
    a successful write on a descriptor just opened with [O_APPEND] adds
    the data at the end, and neither closing a file nor making
    directories changes the content of any file. *)
Record PosixFiles (E : Env) : Prop := {
  open_keeps : forall w name fl perm w' f,
    os_OpenFile w name fl perm = (w', inl f) ->
    has fl O_TRUNC = false ->
    file_content w' name = Some (default "" (file_content w name));
  write_appends : forall w name fl perm w' f data w'' c,
    os_OpenFile w name fl perm = (w', inl f) ->
    has fl O_APPEND = true ->
    file_content w' name = Some c ->
    file_write w' f data = (w'', None) ->
    file_content w'' name = Some (c +:+ data);
  close_keeps : forall w f w' r name,
    file_close w f = (w', r) -> file_content w' name = file_content w name;
  mkdir_keeps : forall w path perm w' r name,
    os_MkdirAll w path perm = (w', r) ->
    file_content w' name = file_content w name
}.

(** ** What the file sink does, spelled out

    The outcome of [verifyLogDirectory] and of the [os.OpenFile] that
    follows it, as functions of the world they start in. *)

Section Outcome.
Context {E : Env}.

(** Whether [verifyLogDirectory path] finds a directory to make. *)
Definition missing_dir (w : world) (path : string) : bool :=
  nonempty (dir_of path) && os_IsNotExist (os_Stat w (dir_of path)).

Definition verify_world (w : world) (path : string) : world :=
  if missing_dir w path then fst (os_MkdirAll w (dir_of path) (octal 7 6 6))
  else w.

Definition creating_notice (w : world) (path : string) : list string :=
  if missing_dir w path then [("Creating directory: " +:+ dir_of path) +:+ nl]
  else [].

Definition verify_calls (w : world) (path : string) : list call :=
  if nonempty (dir_of path) then
    CStat (dir_of path) (os_Stat w (dir_of path)) ::
    (if os_IsNotExist (os_Stat w (dir_of path)) then
       [CMkdirAll (dir_of path) (octal 7 6 6)
          (snd (os_MkdirAll w (dir_of path) (octal 7 6 6)))]
     else [])
  else [].

Definition verify_state (path : string) (s : State) : State :=
  mkState (verify_world (st_world s) path)
    (st_stdout s ++ creating_notice (st_world s) path)
    (st_heap s)
    (st_calls s ++ verify_calls (st_world s) path)
    (st_go s).

(** The answer of the [os.OpenFile] in [saveToLogFile]. *)
Definition open_result (lc : LoggingClient) (s : State) : world * (File + error) :=
  os_OpenFile (verify_world (st_world s) (LogTarget lc)) (LogTarget lc)
    open_flags open_perm.


(** The line a logger with the standard flags writes. *)
Definition std_line (pre : string) (t : Time) (line : nat) (msg : string) : string :=
  pre +:+ t_date t +:+ " " +:+ t_time t +:+ " " +:+
  shortfile source_file +:+ ":" +:+ pretty line +:+ ": " +:+ msg +:+ nl.

(** The state after the echo on standard output of a leveled method. *)
Definition echoed (m : Leveled) (lc : LoggingClient) (msg : string)
    (s : State) : State :=
  mkState (st_world s)
    (st_stdout s ++
       [std_line (tag_of m) (clock (st_world s)) (site_of m) msg])
    (<[StdOutLogger lc :=
         {| prefix := tag_of m; flag := stdFlags; out := Some WStdout |}]>
       (st_heap s))
    (st_calls s) (st_go s).

End Outcome.

(** ** Slashes in a path, and runs of calls *)

Fixpoint has_slash (s : string) : bool :=
  match s with
  | EmptyString => false
  | String c rest => is_slash c || has_slash rest
  end.

Fixpoint all_slashes (s : string) : bool :=
  match s with
  | EmptyString => true
  | String c rest => is_slash c && all_slashes rest
  end.

Fixpoint ends_with_slash (s : string) : bool :=
  match s with
  | EmptyString => false
  | String c EmptyString => is_slash c
  | String _ rest => ends_with_slash rest
  end.

Section Sequences.
Context {E : Env}.




End Sequences.

(** ** A small operating system to run the client on *)

Module Sim.

Record World := mkWorld {
  dirs : gset string;
  locked : gset string;
  files : gmap string string;
  opened : list (option (string * bool * nat));
  now : Time;
  offline : bool;
  sent : list Request
}.

Definition exists_ (w : World) (name : string) : bool :=
  bool_decide (name ∈ dirs w) || bool_decide (is_Some (files w !! name)).

Definition Stat (w : World) (name : string) : option error :=
  if exists_ w name then None
  else Some (Err ("stat " +:+ name +:+ ": no such file or directory") true).

Definition MkdirAll (w : World) (path : string) (perm : Z)
    : World * option error :=
  if bool_decide (path ∈ dirs w) then (w, None)
  else if bool_decide (is_Some (files w !! path)) then
    (w, Some (Err ("mkdir " +:+ path +:+ ": not a directory") false))
  else if bool_decide (path ∈ locked w) then
    (w, Some (Err ("mkdir " +:+ path +:+ ": permission denied") false))
  else
    (mkWorld ({[path]} ∪ dirs w) (locked w) (files w) (opened w) (now w)
       (offline w) (sent w), None).

Definition open_as (w : World) (name : string) (fl : Z)
    (fs : gmap string string) : World * (File + error) :=
  (mkWorld (dirs w) (locked w) fs
     (opened w ++ [Some (name, has fl O_APPEND, 0%nat)]) (now w)
     (offline w) (sent w),
   inl (length (opened w))).

Definition OpenFile (w : World) (name : string) (fl perm : Z)
    : World * (File + error) :=
  let parent := dir_of name in
  if nonempty parent && negb (bool_decide (parent ∈ dirs w)) then
    (w, inr (Err ("open " +:+ name +:+ ": no such file or directory") true))
  else if bool_decide (name ∈ dirs w) then
    (w, inr (Err ("open " +:+ name +:+ ": is a directory") false))
  else
    match files w !! name with
    | Some c =>
        if bool_decide (name ∈ locked w) then
          (w, inr (Err ("open " +:+ name +:+ ": permission denied") false))
        else open_as w name fl (if has fl O_TRUNC then <[name := ""]> (files w) else files w)
    | None =>
        if negb (has fl O_CREATE) then
          (w, inr (Err ("open " +:+ name +:+ ": no such file or directory") true))
        else if bool_decide (parent ∈ locked w) then
          (w, inr (Err ("open " +:+ name +:+ ": permission denied") false))
        else open_as w name fl (<[name := ""]> (files w))
    end.

(** Writing [data] over [c] from offset [off]. *)
Definition overwrite (c data : string) (off : nat) : string :=
  String.substring 0 off c +:+ data +:+
  String.substring (off + String.length data)
    (String.length c - (off + String.length data)) c.

Definition write (w : World) (f : File) (data : string) : World * option error :=
  match (opened w !! (f : nat) : option (option (string * bool * nat))) with
  | Some (Some (name, appending, off)) =>
      match files w !! name with
      | Some c =>
          let c' := if appending then c +:+ data else overwrite c data off in
          let off' := if appending then String.length c' else (off + String.length data)%nat in
          (mkWorld (dirs w) (locked w) (<[name := c']> (files w))
             (<[(f : nat) := Some (name, appending, off')]> (opened w)) (now w)
             (offline w) (sent w), None)
      | None => (w, Some (Err ("write " +:+ name +:+ ": input/output error") false))
      end
  | _ => (w, Some (Err "write: file already closed" false))
  end.

Definition close (w : World) (f : File) : World * option error :=
  match (opened w !! (f : nat) : option (option (string * bool * nat))) with
  | Some (Some _) =>
      (mkWorld (dirs w) (locked w) (files w) (<[(f : nat) := None]> (opened w)) (now w)
         (offline w) (sent w), None)
  | _ => (w, Some (Err "close: file already closed" false))
  end.

Definition dq : string := String (ascii_of_nat 34) EmptyString.
Definition quoted (s : string) : string := dq +:+ s +:+ dq.

Fixpoint join (sep : string) (l : list string) : string :=
  match l with
  | [] => ""
  | [x] => x
  | x :: rest => x +:+ sep +:+ join sep rest
  end.

(** The wire format of the spec, without escaping. *)
Definition Marshal (e : LogEntry) : string + error :=
  inl ("{" +:+ quoted "level" +:+ ":" +:+ quoted (Level e) +:+ "," +:+
       quoted "message" +:+ ":" +:+ quoted (Message e) +:+ "," +:+
       quoted "labels" +:+ ":[" +:+ join "," (map quoted (Labels e)) +:+ "]," +:+
       quoted "originService" +:+ ":" +:+ quoted (OriginService e) +:+ "}").

Definition Parse (url : string) : option error :=
  match url with
  | String ":" _ => Some (Err ("parse " +:+ url +:+ ": missing protocol scheme") false)
  | _ => None
  end.

Definition Do (w : World) (req : Request) : World * (Response + error) :=
  if offline w then
    (w, inr (Err ("Post " +:+ URL req +:+ ": dial tcp: connection refused") false))
  else
    (mkWorld (dirs w) (locked w) (files w) (opened w) (now w) (offline w)
       (sent w ++ [req]),
     inl {| StatusCode := 200; Close := false |}).

Definition env : Env := {|
  world := World;
  os_Stat := Stat;
  os_MkdirAll := MkdirAll;
  os_OpenFile := OpenFile;
  file_write := write;
  file_close := close;
  file_content := fun w name => files w !! name;
  clock := now;
  source_file := "/go/src/github.com/edgexfoundry/support-logging-client-go/logger.go";
  json_Marshal := Marshal;
  url_Parse := Parse;
  client_Do := Do;
  body_Close := fun w _ => w
|}.

Definition noon : Time :=
  {| t_date := "2017/11/02"; t_time := "12:00:00"; t_micro := "000000" |}.

(** A machine with an empty disk, nothing logged yet. *)
Definition boot (ds lk : list string) (down : bool) : @State env :=
  @mkState env
    (mkWorld (list_to_set ds) (list_to_set lk) ∅ [] noon down [])
    [] [] [] [].

(** The client [NewClient] returns on a machine just booted, and the
    state it leaves. *)
Definition client (remote : bool) (target : string) : LoggingClient :=
  {| OwningServiceName := "svc"; RemoteEnabled := remote; LogTarget := target;
     StdOutLogger := 0%nat; FileLogger := 1%nat |}.

Definition started (ds lk : list string) (down remote : bool)
    (target : string) : @State env :=
  match @NewClient env "svc" remote target (boot ds lk down) with
  | Returned _ s => s
  | Panicked _ s => s
  end.

(** The machines and clients of the examples: a client with no target,
    one logging to a file under a directory still to be made, one
    whose directory cannot be made, and a remote one, with the network
    up and down. *)
Definition lc_none : LoggingClient := client false "".
Definition s_none : @State env := started [] [] false false "".

Definition lc_file : LoggingClient := client false "/var/log/app.log".
Definition s_file : @State env := started [] [] false false "/var/log/app.log".


Definition lc_url : LoggingClient := client true "http://localhost:48061/api/v1/logs".
Definition s_url : @State env :=
  started [] [] false true "http://localhost:48061/api/v1/logs".
Definition s_down : @State env :=
  started [] [] true true "http://localhost:48061/api/v1/logs".


(** A client logging to a bare file name, and a second client made
    after [lc_file] on the same machine. *)
Definition lc_bare : LoggingClient := client false "app.log".
Definition s_bare : @State env := started [] [] false false "app.log".

Definition lc_second : LoggingClient :=
  {| OwningServiceName := "other"; RemoteEnabled := true;
     LogTarget := "http://localhost:48061/api/v1/logs";
     StdOutLogger := 2%nat; FileLogger := 3%nat |}.
Definition s_two : @State env :=
  final (@NewClient env "other" true "http://localhost:48061/api/v1/logs" s_file).

(** The same machine with a full disk: every write is refused. *)
Definition disk_full : error := Err "write: no space left on device" false.

Definition env_full : Env := {|
  world := World;
  os_Stat := Stat;
  os_MkdirAll := MkdirAll;
  os_OpenFile := OpenFile;
  file_write := fun w _ _ => (w, Some disk_full);
  file_close := close;
  file_content := fun w name => files w !! name;
  clock := now;
  source_file := "/go/src/github.com/edgexfoundry/support-logging-client-go/logger.go";
  json_Marshal := Marshal;
  url_Parse := Parse;
  client_Do := Do;
  body_Close := fun w _ => w
|}.

Definition s_full : @State env_full :=
  @mkState env_full
    (mkWorld ∅ ∅ ∅ [] noon false [])
    []
    [{| prefix := ""; flag := stdFlags; out := Some WStdout |};
     {| prefix := ""; flag := stdFlags; out := None |}]
    [] [].

End Sim.

(** ** Strings *)

Lemma filepath_Split_join path :
  fst (filepath_Split path) +:+ snd (filepath_Split path) = path.
Proof.
  induction path as [|c rest IH]; simpl; [reflexivity|].
  destruct (filepath_Split rest) as [d f]; simpl in *.
  destruct d as [|d0 d']; simpl in *.
  - change (f = rest) in IH. subst rest. destruct (is_slash c); reflexivity.
  - change (String c (String d0 d' +:+ f) = String c rest). f_equal. exact IH.
Qed.

Lemma append_nil_l (a : string) : "" +:+ a = a.
Proof. reflexivity. Qed.

Lemma append_nil_r (a : string) : a +:+ "" = a.
Proof.
  induction a as [|c a IH]; [reflexivity|].
  change (String c (a +:+ "") = String c a). f_equal. exact IH.
Qed.

Lemma append_assoc (a b c : string) : (a +:+ b) +:+ c = a +:+ (b +:+ c).
Proof.
  induction a as [|x a IH]; [reflexivity|].
  change (String x ((a +:+ b) +:+ c) = String x (a +:+ (b +:+ c))).
  f_equal. exact IH.
Qed.

(** ** Running the monad *)

Ltac unfold_M :=
  cbv beta iota zeta delta
    [mbind M_bind bind mret M_ret ret panic defer syscall
     fmt_Println os_Stat_ os_MkdirAll_ os_OpenFile_ File_Write File_Close
     Writer_Write deref store Logger_SetPrefix Logger_SetOutput
     Logger_SetFlags Logger_Println time_Now go
     set_calls set_world set_stdout set_heap set_go] in *.

Section Runs.
Context {E : Env}.

Lemma set_same (s : State) :
  mkState (st_world s) (st_stdout s) (st_heap s) (st_calls s) (st_go s) = s.
Proof. destruct s; reflexivity. Qed.

Lemma verifyLogDirectory_run path s :
  verifyLogDirectory path s = Returned tt (verify_state path s).
Proof.
  unfold verifyLogDirectory, verify_state, verify_world, creating_notice,
    verify_calls, missing_dir.
  fold (dir_of path).
  destruct (nonempty (dir_of path)); simpl.
  - unfold_M; simpl.
    destruct (os_IsNotExist (os_Stat (st_world s) (dir_of path))); simpl.
    + destruct (os_MkdirAll (st_world s) (dir_of path) (octal 7 6 6)) as [w r].
      simpl. rewrite <- app_assoc. reflexivity.
    + rewrite app_nil_r. reflexivity.
  - unfold_M. rewrite !app_nil_r, set_same. reflexivity.
Qed.

Lemma log_line_std L t line msg :
  flag L = stdFlags -> log_line L t line msg = std_line (prefix L) t line msg.
Proof.
  intros Hf. unfold log_line, std_line, formatHeader. rewrite Hf.
  change (has stdFlags Lmsgprefix) with false.
  change (has stdFlags (Z.lor Ldate (Z.lor Ltime Lmicroseconds))) with true.
  change (has stdFlags Ldate) with true.
  change (has stdFlags (Z.lor Ltime Lmicroseconds)) with true.
  change (has stdFlags Lmicroseconds) with false.
  change (has stdFlags (Z.lor Lshortfile Llongfile)) with true.
  change (has stdFlags Lshortfile) with true.
  cbv beta iota.
  rewrite !append_assoc, !append_nil_l. reflexivity.
Qed.

Lemma target_set lc : LogTarget lc <> "" -> String.eqb (LogTarget lc) "" = false.
Proof. intros H. apply String.eqb_neq. exact H. Qed.

(** The file sink when the file cannot be opened. *)
Lemma saveToLogFile_fail lc pre msg s w e :
  LogTarget lc <> "" ->
  open_result lc s = (w, inr e) ->
  saveToLogFile lc pre msg s =
  Returned (Some e)
    (mkState w
       (st_stdout (verify_state (LogTarget lc) s) ++
          [("Error opening log file: " +:+ Error_ e) +:+ nl])
       (st_heap s)
       (st_calls (verify_state (LogTarget lc) s) ++
          [COpenFile (LogTarget lc) open_flags open_perm (inr e)])
       (st_go s)).
Proof.
  intros Ht Ho. unfold saveToLogFile. rewrite (target_set lc Ht).
  unfold mbind at 1, M_bind, bind. rewrite verifyLogDirectory_run.
  unfold open_result in Ho. unfold_M. simpl.
  fold open_flags open_perm. rewrite Ho. reflexivity.
Qed.

(** The file sink when the file opens. *)
Lemma saveToLogFile_ok lc pre msg s w f L :
  LogTarget lc <> "" ->
  open_result lc s = (w, inl f) ->
  st_heap s !! FileLogger lc = Some L ->
  let L' := {| prefix := pre +:+ ": "; flag := flag L; out := Some (WFile (Some f)) |} in
  let line := log_line L' (clock w) 87 msg in
  saveToLogFile lc pre msg s =
  Returned None
    (mkState (fst (file_close (fst (file_write w f line)) f))
       (st_stdout (verify_state (LogTarget lc) s))
       (<[FileLogger lc := L']> (st_heap s))
       (st_calls (verify_state (LogTarget lc) s) ++
          [COpenFile (LogTarget lc) open_flags open_perm (inl f);
           CWrite f line (snd (file_write w f line));
           CClose f (snd (file_close (fst (file_write w f line)) f))])
       (st_go s)).
Proof.
  intros Ht Ho HL L' line. unfold saveToLogFile. rewrite (target_set lc Ht).
  unfold mbind at 1, M_bind, bind. rewrite verifyLogDirectory_run.
  unfold open_result in Ho. unfold_M. simpl.
  fold open_flags open_perm. rewrite Ho. simpl. rewrite HL. simpl.
  pose proof (lookup_lt_Some _ _ _ HL) as Hlt.
  rewrite list_lookup_insert_eq by exact Hlt. simpl.
  rewrite list_insert_insert_eq.
  rewrite list_lookup_insert_eq by exact Hlt. simpl.
  fold L'. fold line.
  destruct (file_write w f line) as [w3 wr]. simpl.
  destruct (file_close w3 f) as [w4 cr]. simpl.
  rewrite <- !app_assoc. reflexivity.
Qed.

(** A leveled method: the echo, then the dispatch. *)
Lemma call_method_run m lc msg labels s p :
  st_heap s !! StdOutLogger lc =
    Some {| prefix := p; flag := stdFlags; out := Some WStdout |} ->
  call_method m lc msg labels s =
  log lc (level_of m) msg labels (echoed m lc msg s).
Proof.
  intros Hs. pose proof (lookup_lt_Some _ _ _ Hs) as Hlt.
  assert (Hrun : forall tag line lvl,
    (Logger_SetPrefix (StdOutLogger lc) tag;;
     Logger_Println (StdOutLogger lc) line msg;;
     log lc lvl msg labels) s =
    log lc lvl msg labels
      (mkState (st_world s)
         (st_stdout s ++ [std_line tag (clock (st_world s)) line msg])
         (<[StdOutLogger lc :=
              {| prefix := tag; flag := stdFlags; out := Some WStdout |}]>
            (st_heap s))
         (st_calls s) (st_go s))).
  { intros tag line lvl. unfold_M. rewrite Hs. simpl.
    rewrite list_lookup_insert_eq by exact Hlt. simpl.
    rewrite log_line_std by reflexivity. reflexivity. }
  destruct m; apply Hrun.
Qed.

Lemma echoed_ok m lc msg s : client_ok s lc -> client_ok (echoed m lc msg s) lc.
Proof.
  intros (Hne & [p Hs] & [q [o Hf]]). unfold client_ok, echoed. simpl.
  split; [exact Hne|]. split.
  - exists (tag_of m). apply list_lookup_insert_eq. eapply lookup_lt_Some, Hs.
  - exists q, o. rewrite list_lookup_insert_ne by exact Hne. exact Hf.
Qed.

(** The remote sink, case by case. *)
Lemma sendLog_run lc e s :
  LogTarget lc <> "" ->
  sendLog lc e s =
  match json_Marshal e with
  | inr err =>
      Returned (Some err) (set_stdout (st_stdout s ++ [Error_ err +:+ nl]) s)
  | inl reqBody =>
      match url_Parse (LogTarget lc) with
      | Some err =>
          Returned (Some err) (set_stdout (st_stdout s ++ [Error_ err +:+ nl]) s)
      | None =>
          Returned None
            (set_go (st_go s ++
               [(lc, {| Method := "POST"; URL := LogTarget lc;
                        Header := [("Content-Type", "application/json")];
                        Body := reqBody |})]) s)
      end
  end.
Proof.
  intros Ht. unfold sendLog, http_NewRequest. rewrite (target_set lc Ht).
  destruct (json_Marshal e) as [body|err]; [|reflexivity].
  destruct (url_Parse (LogTarget lc)) as [err|]; reflexivity.
Qed.

Lemma issued_app s s' new :
  st_calls s' = st_calls s ++ new -> issued s s' = new.
Proof. intros H. unfold issued. rewrite H. apply drop_app_length. Qed.

Lemma verify_calls_kind w path c :
  c ∈ verify_calls w path ->
  (exists n r, c = CStat n r) \/ (exists d p r, c = CMkdirAll d p r).
Proof.
  unfold verify_calls. destruct (nonempty (dir_of path)).
  - intros [->|Hin]%elem_of_cons; [left; eauto|].
    destruct (os_IsNotExist _).
    + apply list_elem_of_singleton in Hin as ->. right; eauto.
    + apply elem_of_nil in Hin as [].
  - intros Hin. apply elem_of_nil in Hin as [].
Qed.

(** The dispatch always returns; it only adds to standard output, and
    the one logger it may change is the file logger, when a file opens. *)
Lemma log_run lc lvl msg labels s :
  client_ok s lc ->
  exists r s',
    log lc lvl msg labels s = Returned r s' /\
    (exists extra, st_stdout s' = st_stdout s ++ extra) /\
    (st_heap s' = st_heap s \/
     exists f,
       RemoteEnabled lc = false /\ LogTarget lc <> "" /\
       snd (open_result lc s) = inl f /\
       st_heap s' =
         <[FileLogger lc :=
             {| prefix := lvl +:+ ": "; flag := stdFlags;
                out := Some (WFile (Some f)) |}]> (st_heap s)).
Proof.
  intros (Hne & _ & [q [o Hf]]). unfold log.
  destruct (String.eqb_spec (LogTarget lc) "") as [Ht|Ht].
  - exists None, s. split.
    + destruct (RemoteEnabled lc); simpl.
      * unfold sendLog. rewrite Ht. reflexivity.
      * unfold saveToLogFile. rewrite Ht. reflexivity.
    + split; [exists []; symmetry; apply app_nil_r | left; reflexivity].
  - destruct (RemoteEnabled lc) eqn:Hr; simpl.
    + rewrite (sendLog_run _ _ _ Ht).
      destruct (json_Marshal _) as [body|err].
      * destruct (url_Parse (LogTarget lc)) as [err|].
        -- eexists _, _. split; [reflexivity|]. simpl. split; [eauto | left; reflexivity].
        -- eexists _, _. split; [reflexivity|]. simpl.
           split; [exists []; symmetry; apply app_nil_r | left; reflexivity].
      * eexists _, _. split; [reflexivity|]. simpl. split; [eauto | left; reflexivity].
    + destruct (open_result lc s) as [w [f|e]] eqn:Ho.
      * rewrite (saveToLogFile_ok lc lvl msg s w f _ Ht Ho Hf).
        eexists _, _. split; [reflexivity|]. simpl. split; [eauto|].
        right. exists f. repeat split; try assumption.
      * rewrite (saveToLogFile_fail lc lvl msg s w e Ht Ho).
        eexists _, _. split; [reflexivity|]. simpl. split.
        -- rewrite <- app_assoc. eauto.
        -- left; reflexivity.
Qed.

(** With no target the dispatch is the identity on states. *)
Lemma log_empty_target lc lvl msg labels s :
  LogTarget lc = "" -> log lc lvl msg labels s = Returned None s.
Proof.
  intros Ht. unfold log, sendLog, saveToLogFile. rewrite Ht.
  destruct (RemoteEnabled lc); reflexivity.
Qed.

(** A local call with a target, in full. *)
Lemma local_run lc lvl msg labels s :
  RemoteEnabled lc = false ->
  LogTarget lc <> "" ->
  client_ok s lc ->
  match open_result lc s with
  | (w, inl f) =>
      let line := std_line (lvl +:+ ": ") (clock w) 87 msg in
      log lc lvl msg labels s =
      Returned None
        (mkState (fst (file_close (fst (file_write w f line)) f))
           (st_stdout s ++ creating_notice (st_world s) (LogTarget lc))
           (<[FileLogger lc :=
                {| prefix := lvl +:+ ": "; flag := stdFlags;
                   out := Some (WFile (Some f)) |}]> (st_heap s))
           (st_calls s ++ verify_calls (st_world s) (LogTarget lc) ++
              [COpenFile (LogTarget lc) open_flags open_perm (inl f);
               CWrite f line (snd (file_write w f line));
               CClose f (snd (file_close (fst (file_write w f line)) f))])
           (st_go s))
  | (w, inr e) =>
      log lc lvl msg labels s =
      Returned (Some e)
        (mkState w
           (st_stdout s ++ creating_notice (st_world s) (LogTarget lc) ++
              [("Error opening log file: " +:+ Error_ e) +:+ nl])
           (st_heap s)
           (st_calls s ++ verify_calls (st_world s) (LogTarget lc) ++
              [COpenFile (LogTarget lc) open_flags open_perm (inr e)])
           (st_go s))
  end.
Proof.
  intros Hr Ht (Hne & _ & [q [o Hf]]).
  destruct (open_result lc s) as [w [f|e]] eqn:Ho.
  - intros line. unfold log. rewrite Hr. simpl.
    rewrite (saveToLogFile_ok lc lvl msg s w f _ Ht Ho Hf). simpl.
    rewrite log_line_std by reflexivity. simpl. fold line.
    rewrite <- !app_assoc. reflexivity.
  - unfold log. rewrite Hr. simpl.
    rewrite (saveToLogFile_fail lc lvl msg s w e Ht Ho). simpl.
    rewrite <- !app_assoc. reflexivity.
Qed.

(** [NewClient] makes a client that is in order. *)
Lemma NewClient_ok name remote target s :
  exists lc s',
    NewClient name remote target s = Returned lc s' /\
    OwningServiceName lc = name /\ RemoteEnabled lc = remote /\
    LogTarget lc = target /\
    client_ok s' lc /\
    st_stdout s' = st_stdout s /\ st_calls s' = st_calls s /\
    st_world s' = st_world s /\ st_go s' = st_go s.
Proof.
  unfold NewClient, alloc. unfold_M.
  set (Lso := {| prefix := ""; flag := stdFlags; out := Some WStdout |}).
  set (h1 := st_heap s ++ [Lso]).
  cbn [st_heap st_world st_stdout st_calls st_go].
  rewrite (list_lookup_middle h1 [] _ (length h1) eq_refl).
  cbn [st_heap st_world st_stdout st_calls st_go prefix out].
  rewrite (insert_app_r_alt h1 _ (length h1)) by lia.
  rewrite Nat.sub_diag. simpl.
  eexists _, _. split; [reflexivity|]. simpl.
  repeat split.
  - subst h1. rewrite length_app. simpl. lia.
  - exists "". subst h1. rewrite <- app_assoc. apply list_lookup_middle. reflexivity.
  - exists "", None. apply list_lookup_middle. reflexivity.
Qed.

(** Under the file system's duties, one successful local call adds
    its line at the end of the file. *)
Lemma verify_world_content (P : PosixFiles E) w path name :
  file_content (verify_world w path) name = file_content w name.
Proof.
  unfold verify_world. destruct (missing_dir w path); [|reflexivity].
  destruct (os_MkdirAll w (dir_of path) (octal 7 6 6)) as [w' r] eqn:Hm.
  simpl. eapply mkdir_keeps; eassumption.
Qed.

Lemma append_once (P : PosixFiles E) lc s w f line :
  open_result lc s = (w, inl f) ->
  snd (file_write w f line) = None ->
  file_content (fst (file_close (fst (file_write w f line)) f)) (LogTarget lc) =
  Some (default "" (file_content (st_world s) (LogTarget lc)) +:+ line).
Proof.
  intros Ho Hw. unfold open_result in Ho.
  pose proof (open_keeps E P _ _ _ _ _ _ Ho eq_refl) as Hc.
  rewrite verify_world_content in Hc by exact P.
  destruct (file_write w f line) as [w3 wr] eqn:Hfw. simpl in Hw |- *. subst wr.
  pose proof (write_appends E P _ _ _ _ _ _ _ _ _ Ho eq_refl Hc Hfw) as Hc3.
  destruct (file_close w3 f) as [w4 cr] eqn:Hfc. simpl.
  rewrite (close_keeps E P _ _ _ _ (LogTarget lc) Hfc). exact Hc3.
Qed.

End Runs.

(** ** The claims *)

Section Claims.
Context {E : Env}.

(** C1: with an empty log target every leveled call returns nil and the
    dispatch does nothing at all, in local and in remote mode: the
    state after [log] is the state before it, so the whole call issues
    no system call, changes no file and launches no request. *)
Theorem C1_empty_target_noop (m : Leveled) (lc : LoggingClient)
    (msg : string) (labels : list string) (s : State) :
  LogTarget lc = "" ->
  client_ok s lc ->
  (forall lvl s0, log lc lvl msg labels s0 = Returned None s0) /\
  (forall pre s0, saveToLogFile lc pre msg s0 = Returned None s0) /\
  (forall e s0, sendLog lc e s0 = Returned None s0) /\
  exists s',
    call_method m lc msg labels s = Returned None s' /\
    st_calls s' = st_calls s /\
    st_world s' = st_world s /\
    st_go s' = st_go s.
Proof.
  intros Ht (Hne & [p Hs] & Hf).
  assert (Hsave : forall pre s0, saveToLogFile lc pre msg s0 = Returned None s0).
  { intros pre s0. unfold saveToLogFile. rewrite Ht. reflexivity. }
  assert (Hsend : forall e s0, sendLog lc e s0 = Returned None s0).
  { intros e s0. unfold sendLog. rewrite Ht. reflexivity. }
  assert (Hlog : forall lvl s0, log lc lvl msg labels s0 = Returned None s0).
  { intros lvl s0. unfold log. destruct (RemoteEnabled lc); simpl.
    - apply Hsend.
    - apply Hsave. }
  repeat split; try assumption.
  exists (echoed m lc msg s).
  rewrite (call_method_run m lc msg labels s p Hs), Hlog.
  repeat split.
Qed.

(** C6: [Trace] does nothing: it returns at once and the state, with
    standard output, files, loggers and goroutines, is untouched. *)
Theorem C6_Trace_noop (lc : LoggingClient) (msg : string)
    (labels : list string) (s : State) :
  Trace lc msg labels s = Returned tt s.
Proof. reflexivity. Qed.

(** C9: in local mode the labels play no part: two calls of the same
    method that differ in their labels only give the same result and
    the same state, standard output and file included. *)
Theorem C9_labels_unused_locally (m : Leveled) (lc : LoggingClient)
    (msg : string) (labels1 labels2 : list string) (s : State) :
  RemoteEnabled lc = false ->
  call_method m lc msg labels1 s = call_method m lc msg labels2 s.
Proof.
  intros Hr.
  assert (Hlog : forall lvl, log lc lvl msg labels1 = log lc lvl msg labels2).
  { intros lvl. unfold log. rewrite Hr. reflexivity. }
  destruct m; simpl; unfold Info, Debug, Warn, Error; rewrite Hlog; reflexivity.
Qed.

(** C2: every leveled method hands its own level, the message and the
    labels to the dispatch; the dispatch takes the file sink when the
    client is local, and when it is remote it builds the entry with
    that level, that message, those labels in order and the owning
    service name as origin, and gives it to the sender, which posts its
    encoding. *)
Theorem C2_dispatch (m : Leveled) (lc : LoggingClient) (msg : string)
    (labels : list string) (s : State) :
  client_ok s lc ->
  call_method m lc msg labels s =
    log lc (level_of m) msg labels (echoed m lc msg s) /\
  (RemoteEnabled lc = false ->
   forall lvl s0, log lc lvl msg labels s0 = saveToLogFile lc lvl msg s0) /\
  (RemoteEnabled lc = true ->
   forall lvl s0,
     let e := buildLogEntry lc lvl msg labels in
     Level e = lvl /\ Message e = msg /\ Labels e = labels /\
     OriginService e = OwningServiceName lc /\
     log lc lvl msg labels s0 = sendLog lc e s0 /\
     (forall body,
        LogTarget lc <> "" ->
        json_Marshal
          {| Level := lvl; Message := msg; Labels := labels;
             OriginService := OwningServiceName lc |} = inl body ->
        url_Parse (LogTarget lc) = None ->
        exists s1,
          log lc lvl msg labels s0 = Returned None s1 /\
          st_go s1 = st_go s0 ++
            [(lc, {| Method := "POST"; URL := LogTarget lc;
                     Header := [("Content-Type", "application/json")];
                     Body := body |})])).
Proof.
  intros (Hne & [p Hs] & Hf). split; [|split].
  - apply (call_method_run m lc msg labels s p Hs).
  - intros Hr lvl s0. unfold log. rewrite Hr. reflexivity.
  - intros Hr lvl s0 e. repeat split.
    + unfold log. rewrite Hr. reflexivity.
    + intros body Ht Hm Hu. unfold log. rewrite Hr. simpl.
      rewrite (sendLog_run _ _ _ Ht). unfold buildLogEntry. rewrite Hm, Hu.
      eexists. split; reflexivity.
Qed.

(** C4: each of Info, Debug, Warn and Error first writes on standard
    output one line that starts with its level name and a colon and a
    space, and only then dispatches, whatever the mode and the target;
    the line is still there, in that place, when the call returns. *)
Theorem C4_echo_then_dispatch (m : Leveled) (lc : LoggingClient)
    (msg : string) (labels : list string) (s : State) :
  client_ok s lc ->
  let line :=
    tag_of m +:+ t_date (clock (st_world s)) +:+ " " +:+
    t_time (clock (st_world s)) +:+ " " +:+ shortfile source_file +:+ ":" +:+
    pretty (site_of m) +:+ ": " +:+ msg +:+ nl in
  tag_of m = level_of m +:+ ": " /\
  st_stdout (echoed m lc msg s) = st_stdout s ++ [line] /\
  st_calls (echoed m lc msg s) = st_calls s /\
  st_go (echoed m lc msg s) = st_go s /\
  call_method m lc msg labels s =
    log lc (level_of m) msg labels (echoed m lc msg s) /\
  exists r s' rest,
    call_method m lc msg labels s = Returned r s' /\
    st_stdout s' = st_stdout s ++ [line] ++ rest.
Proof.
  intros Hok line.
  pose proof Hok as (Hne & [p Hs] & Hf).
  pose proof (call_method_run m lc msg labels s p Hs) as Hrun.
  split; [destruct m; reflexivity|].
  split; [reflexivity|]. split; [reflexivity|]. split; [reflexivity|].
  split; [exact Hrun|].
  destruct (log_run lc (level_of m) msg labels _ (echoed_ok m lc msg s Hok))
    as (r & s' & Hlog & [extra Hout] & _).
  exists r, s', extra. split.
  - rewrite Hrun. exact Hlog.
  - rewrite Hout. simpl. rewrite <- app_assoc. reflexivity.
Qed.

(** C5: with a target set, the sender returns an error exactly when the
    encoding of the entry or the construction of the POST request
    fails, and then that error is printed and nothing is launched;
    otherwise it parks one request for a goroutine and returns nil
    without having called the transport.  The goroutine, whenever it
    runs, returns nothing: a transport failure is printed, no more. *)
Theorem C5_remote_errors (lc : LoggingClient) (e : LogEntry) (s : State) :
  LogTarget lc <> "" ->
  (exists r s',
     sendLog lc e s = Returned r s' /\
     (r <> None <->
        (exists err, json_Marshal e = inr err) \/
        (exists body err,
           json_Marshal e = inl body /\
           http_NewRequest "POST" (LogTarget lc) body = inr err)) /\
     (forall err,
        r = Some err ->
        (json_Marshal e = inr err \/
         exists body,
           json_Marshal e = inl body /\
           http_NewRequest "POST" (LogTarget lc) body = inr err) /\
        st_stdout s' = st_stdout s ++ [Error_ err +:+ nl] /\
        st_go s' = st_go s) /\
     (r = None ->
        exists body req,
          json_Marshal e = inl body /\
          http_NewRequest "POST" (LogTarget lc) body = inl req /\
          st_go s' =
            st_go s ++ [(lc, Header_Add "Content-Type" "application/json" req)] /\
          st_stdout s' = st_stdout s) /\
     st_calls s' = st_calls s /\
     st_world s' = st_world s /\
     st_heap s' = st_heap s) /\
  (forall req s1,
     exists s2,
       makeRequest lc req s1 = Returned tt s2 /\
       st_go s2 = st_go s1 /\
       st_heap s2 = st_heap s1 /\
       st_stdout s2 =
         st_stdout s1 ++
         match snd (client_Do (st_world s1) req) with
         | inr err => [Error_ err +:+ nl]
         | inl _ => []
         end).
Proof.
  intros Ht. split.
  - rewrite (sendLog_run _ _ _ Ht). unfold http_NewRequest.
    destruct (json_Marshal e) as [body|err].
    + destruct (url_Parse (LogTarget lc)) as [err|].
      * eexists _, _. split; [reflexivity|]. simpl. repeat split.
        -- intros _. right. eauto.
        -- intros _. discriminate.
        -- right. injection H as <-. eauto.
        -- injection H as <-. reflexivity.
        -- discriminate.
      * eexists _, _. split; [reflexivity|]. simpl. repeat split.
        -- intros H. contradiction.
        -- intros [[err H]|(b & err & _ & H)]; discriminate.
        -- discriminate.
        -- discriminate.
        -- discriminate.
        -- intros _. eexists _, _. repeat split.
    + eexists _, _. split; [reflexivity|]. simpl. repeat split.
      * intros _. left. eauto.
      * intros _. discriminate.
      * left. injection H as <-. reflexivity.
      * injection H as <-. reflexivity.
      * discriminate.
  - intros req s1. unfold makeRequest. unfold_M.
    destruct (client_Do (st_world s1) req) as [w [resp|err]]; simpl.
    + eexists. split; [reflexivity|]. simpl.
      rewrite app_nil_r. repeat split.
    + eexists. split; [reflexivity|]. simpl. repeat split.
Qed.




(** C7: a local call with a target asks for the status of the target's
    directory and, when it is reported missing, makes it with all its
    parents and mode 0766 (and makes no directory otherwise); it then
    opens the target with O_APPEND, O_CREATE and O_WRONLY, without
    O_TRUNC, and mode 0644; when the file opens, the file logger gets
    the prefix [<LEVEL>: ] and that file as writer, and one write
    carries the prefix, the date, the time, the place and the message
    followed by a newline, after which the file is closed.  On a file
    system that honours appending, a second successful call on the same
    client leaves the file with its former content, then the first
    line, then the second. *)
Theorem C7_file_sink (lc : LoggingClient) (lvl : LogLevel) (msg : string)
    (labels : list string) (s : State) :
  RemoteEnabled lc = false ->
  LogTarget lc <> "" ->
  client_ok s lc ->
  exists r s' rest,
    log lc lvl msg labels s = Returned r s' /\
    (missing_dir (st_world s) (LogTarget lc) = true ->
     CMkdirAll (dir_of (LogTarget lc)) (octal 7 6 6)
       (snd (os_MkdirAll (st_world s) (dir_of (LogTarget lc)) (octal 7 6 6)))
       ∈ issued s s') /\
    (missing_dir (st_world s) (LogTarget lc) = false ->
     forall d p r0, CMkdirAll d p r0 ∉ issued s s') /\
    issued s s' =
      verify_calls (st_world s) (LogTarget lc) ++
      COpenFile (LogTarget lc) (Z.lor (Z.lor O_APPEND O_CREATE) O_WRONLY)
        (octal 6 4 4) (snd (open_result lc s)) :: rest /\
    has open_flags O_APPEND = true /\
    has open_flags O_CREATE = true /\
    has open_flags O_TRUNC = false /\
    match snd (open_result lc s) with
    | inl f =>
        r = None /\
        st_heap s' !! FileLogger lc =
          Some {| prefix := lvl +:+ ": "; flag := stdFlags;
                  out := Some (WFile (Some f)) |} /\
        exists wr cr,
          rest =
            [CWrite f
               (std_line (lvl +:+ ": ") (clock (fst (open_result lc s))) 87 msg)
               wr;
             CClose f cr]
    | inr e => r = Some e /\ rest = []
    end /\
    (PosixFiles E ->
     forall lvl2 msg2 labels2 r2 s2,
       r = None ->
       log lc lvl2 msg2 labels2 s' = Returned r2 s2 ->
       r2 = None ->
       (forall f d e, CWrite f d (Some e) ∉ issued s s2) ->
       exists t1 t2,
         file_content (st_world s2) (LogTarget lc) =
         Some (default "" (file_content (st_world s) (LogTarget lc)) +:+
               std_line (lvl +:+ ": ") t1 87 msg +:+
               std_line (lvl2 +:+ ": ") t2 87 msg2)).
Proof.
  intros Hr Ht Hok. pose proof Hok as (Hne & [p Hs] & [q [o Hf]]).
  pose proof (lookup_lt_Some _ _ _ Hf) as Hltf.
  pose proof (local_run lc lvl msg labels s Hr Ht Hok) as Hrun.
  assert (Hmk : missing_dir (st_world s) (LogTarget lc) = true ->
    CMkdirAll (dir_of (LogTarget lc)) (octal 7 6 6)
      (snd (os_MkdirAll (st_world s) (dir_of (LogTarget lc)) (octal 7 6 6)))
      ∈ verify_calls (st_world s) (LogTarget lc)).
  { unfold missing_dir, verify_calls. intros [-> ->]%andb_true_iff.
    apply elem_of_cons. right. apply list_elem_of_singleton. reflexivity. }
  assert (Hnomk : missing_dir (st_world s) (LogTarget lc) = false ->
    forall d p0 r0, CMkdirAll d p0 r0 ∉ verify_calls (st_world s) (LogTarget lc)).
  { unfold missing_dir, verify_calls. intros Hm d p0 r0.
    destruct (nonempty (dir_of (LogTarget lc))); simpl in Hm.
    - rewrite Hm. intros Hin. apply list_elem_of_singleton in Hin. discriminate.
    - apply not_elem_of_nil. }
  destruct (open_result lc s) as [w [f|e]] eqn:Ho; simpl in Hrun |- *.
  - set (line := std_line (lvl +:+ ": ") (clock w) 87 msg) in *.
    eexists None, _, _. split; [exact Hrun|].
    match goal with
    | |- context [issued s ?S'] =>
        assert (Hi : issued s S' =
          verify_calls (st_world s) (LogTarget lc) ++
          [COpenFile (LogTarget lc) open_flags open_perm (inl f);
           CWrite f line (snd (file_write w f line));
           CClose f (snd (file_close (fst (file_write w f line)) f))])
          by (apply issued_app; reflexivity)
    end.
    rewrite Hi.
    split; [intros Hm; apply elem_of_app; left; exact (Hmk Hm)|].
    split.
    { intros Hm d p0 r0 [Hin|Hin]%elem_of_app.
      - exact (Hnomk Hm d p0 r0 Hin).
      - repeat (apply elem_of_cons in Hin as [Hin|Hin]; [discriminate|]).
        apply elem_of_nil in Hin as []. }
    split; [reflexivity|].
    split; [reflexivity|]. split; [reflexivity|]. split; [reflexivity|].
    split.
    { split; [reflexivity|]. split.
      - simpl. apply list_lookup_insert_eq. exact Hltf.
      - eexists _, _. reflexivity. }
    intros P lvl2 msg2 labels2 r2 s2 _ Hlog2 Hr2 Hnofail.
    match type of Hlog2 with
    | log _ _ _ _ ?S1 = _ => set (s1 := S1) in *
    end.
    assert (Hok1 : client_ok s1 lc).
    { split; [exact Hne|]. subst s1. simpl. split.
      - exists p. rewrite list_lookup_insert_ne by congruence. exact Hs.
      - eexists _, _. apply list_lookup_insert_eq. exact Hltf. }
    pose proof (local_run lc lvl2 msg2 labels2 s1 Hr Ht Hok1) as Hrun2.
    destruct (open_result lc s1) as [w2 [f2|e2]] eqn:Ho2; simpl in Hrun2;
      rewrite Hrun2 in Hlog2; injection Hlog2 as <- <-; [|discriminate].
    set (line2 := std_line (lvl2 +:+ ": ") (clock w2) 87 msg2) in *.
    exists (clock w), (clock w2). fold line line2. simpl.
    assert (Hall : forall c,
      c ∈ [CWrite f line (snd (file_write w f line));
           CWrite f2 line2 (snd (file_write w2 f2 line2))] ->
      c ∈ issued s
        (mkState (fst (file_close (fst (file_write w2 f2 line2)) f2))
           (st_stdout s1 ++ creating_notice (st_world s1) (LogTarget lc))
           (<[FileLogger lc :=
                {| prefix := lvl2 +:+ ": "; flag := stdFlags;
                   out := Some (WFile (Some f2)) |}]> (st_heap s1))
           (st_calls s1 ++ verify_calls (st_world s1) (LogTarget lc) ++
              [COpenFile (LogTarget lc) open_flags open_perm (inl f2);
               CWrite f2 line2 (snd (file_write w2 f2 line2));
               CClose f2 (snd (file_close (fst (file_write w2 f2 line2)) f2))])
           (st_go s1))).
    { intros c Hc. unfold issued. simpl. subst s1. simpl.
      rewrite <- !app_assoc. rewrite drop_app_length.
      rewrite !elem_of_app, !elem_of_cons.
      apply elem_of_cons in Hc as [->|Hc]; [tauto|].
      apply list_elem_of_singleton in Hc as ->. tauto. }
    assert (Hw1 : snd (file_write w f line) = None).
    { destruct (snd (file_write w f line)) as [e1|] eqn:Hw; [|reflexivity].
      exfalso. apply (Hnofail f line e1). apply Hall.
      apply elem_of_cons. left. reflexivity. }
    assert (Hw2 : snd (file_write w2 f2 line2) = None).
    { destruct (snd (file_write w2 f2 line2)) as [e1|] eqn:Hw; [|reflexivity].
      exfalso. apply (Hnofail f2 line2 e1). apply Hall.
      apply elem_of_cons. right. apply list_elem_of_singleton. reflexivity. }
    rewrite (append_once P lc s1 w2 f2 line2 Ho2 Hw2).
    subst s1. simpl.
    rewrite (append_once P lc s w f line Ho Hw1). simpl.
    rewrite append_assoc. reflexivity.
  - eexists (Some e), _, []. split; [exact Hrun|].
    match goal with
    | |- context [issued s ?S'] =>
        assert (Hi : issued s S' =
          verify_calls (st_world s) (LogTarget lc) ++
          [COpenFile (LogTarget lc) open_flags open_perm (inr e)])
          by (apply issued_app; reflexivity)
    end.
    rewrite Hi.
    split; [intros Hm; apply elem_of_app; left; exact (Hmk Hm)|].
    split.
    { intros Hm d p0 r0 [Hin|Hin]%elem_of_app.
      - exact (Hnomk Hm d p0 r0 Hin).
      - apply list_elem_of_singleton in Hin. discriminate. }
    split; [reflexivity|].
    split; [reflexivity|]. split; [reflexivity|]. split; [reflexivity|].
    split; [split; reflexivity|].
    intros _ lvl2 msg2 labels2 r2 s2 Hnone. discriminate.
Qed.

End Claims.

(** ** The small operating system honours appending *)

Lemma Sim_open_as w name fl fs w' f :
  Sim.open_as w name fl fs = (w', inl f) ->
  Sim.files w' = fs /\
  Sim.opened w' = Sim.opened w ++ [Some (name, has fl O_APPEND, 0%nat)] /\
  f = length (Sim.opened w).
Proof. unfold Sim.open_as. intros [= <- <-]. simpl. auto. Qed.

Lemma Sim_OpenFile_ok w name fl perm w' f :
  Sim.OpenFile w name fl perm = (w', inl f) ->
  Sim.files w' =
    match Sim.files w !! name with
    | Some c => if has fl O_TRUNC then <[name := ""]> (Sim.files w) else Sim.files w
    | None => <[name := ""]> (Sim.files w)
    end /\
  Sim.opened w' = Sim.opened w ++ [Some (name, has fl O_APPEND, 0%nat)] /\
  f = length (Sim.opened w).
Proof.
  unfold Sim.OpenFile. intros H.
  destruct (nonempty (dir_of name) && negb (bool_decide (dir_of name ∈ Sim.dirs w)));
    [discriminate|].
  destruct (bool_decide (name ∈ Sim.dirs w)); [discriminate|].
  destruct (Sim.files w !! name) as [c|].
  - destruct (bool_decide (name ∈ Sim.locked w)); [discriminate|].
    apply Sim_open_as in H. exact H.
  - destruct (negb (has fl O_CREATE)); [discriminate|].
    destruct (bool_decide (dir_of name ∈ Sim.locked w)); [discriminate|].
    apply Sim_open_as in H. exact H.
Qed.

Lemma Sim_posix : PosixFiles Sim.env.
Proof.
  split; simpl.
  - intros w name fl perm w' f Ho Htr.
    apply Sim_OpenFile_ok in Ho as (Hfs & _ & _). rewrite Hfs, Htr.
    destruct (Sim.files w !! name) as [c|] eqn:Hc; simpl.
    + exact Hc.
    + apply lookup_insert_eq.
  - intros w name fl perm w' f data w'' c Ho Hap Hc Hw.
    apply Sim_OpenFile_ok in Ho as (_ & Hop & ->).
    unfold Sim.write in Hw. rewrite Hop, Hap in Hw.
    rewrite (list_lookup_middle _ [] _ _ eq_refl) in Hw.
    rewrite Hc in Hw. injection Hw as <-. simpl.
    apply lookup_insert_eq.
  - intros w f w' r name. unfold Sim.close.
    intros H. repeat case_match; simplify_eq; reflexivity.
  - intros w path perm w' r name. unfold Sim.MkdirAll.
    intros Hm. repeat case_match; simplify_eq; reflexivity.
Qed.

(** ** Runs on the small operating system *)

Lemma Sim_NewClient ds lk down remote target :
  NewClient (E := Sim.env) "svc" remote target (Sim.boot ds lk down) =
  Returned (Sim.client remote target) (Sim.started ds lk down remote target).
Proof. reflexivity. Qed.

Lemma Sim_client_ok ds lk down remote target :
  client_ok (Sim.started ds lk down remote target) (Sim.client remote target).
Proof.
  split; [discriminate|]. split.
  - exists "". reflexivity.
  - exists "", None. reflexivity.
Qed.

Lemma C1_witness :
  LogTarget Sim.lc_none = "" /\
  exists s',
    call_method (E := Sim.env) MInfo Sim.lc_none "hello" ["a"] Sim.s_none =
      Returned None s' /\
    st_calls s' = [] /\ st_go s' = [].
Proof.
  split; [reflexivity|].
  destruct (C1_empty_target_noop (E := Sim.env) MInfo Sim.lc_none
              "hello" ["a"] Sim.s_none eq_refl
              (Sim_client_ok [] [] false false ""))
    as (_ & _ & _ & s' & Hrun & Hcalls & _ & Hgo).
  exists s'. split; [exact Hrun|]. split; assumption.
Defined.

Lemma C9_witness :
  call_method (E := Sim.env) MWarn Sim.lc_file "oops" ["tag1"] Sim.s_file =
  call_method (E := Sim.env) MWarn Sim.lc_file "oops" ["tag2"; "tag3"] Sim.s_file.
Proof.
  apply (C9_labels_unused_locally (E := Sim.env) MWarn Sim.lc_file).
  reflexivity.
Defined.

Lemma C2_witness :
  call_method (E := Sim.env) MWarn Sim.lc_url "oops" ["tag1"] Sim.s_url =
    log Sim.lc_url WARN "oops" ["tag1"] (echoed MWarn Sim.lc_url "oops" Sim.s_url) /\
  exists body s1,
    Sim.Marshal
      {| Level := WARN; Message := "oops"; Labels := ["tag1"];
         OriginService := "svc" |} = inl body /\
    log (E := Sim.env) Sim.lc_url WARN "oops" ["tag1"] Sim.s_url =
      Returned None s1 /\
    st_go s1 =
      [(Sim.lc_url,
        {| Method := "POST"; URL := "http://localhost:48061/api/v1/logs";
           Header := [("Content-Type", "application/json")];
           Body := body |})].
Proof.
  destruct (C2_dispatch (E := Sim.env) MWarn Sim.lc_url "oops" ["tag1"] Sim.s_url
              (Sim_client_ok [] [] false true _)) as (Hm & _ & Hremote).
  split; [exact Hm|].
  destruct (Hremote eq_refl WARN Sim.s_url) as (_ & _ & _ & _ & _ & Hgo).
  eexists.
  destruct (Hgo _ ltac:(cbv; discriminate) eq_refl eq_refl) as (s1 & Hlog & Hpool).
  exists s1. split; [reflexivity|]. split; [exact Hlog | exact Hpool].
Defined.

Lemma C4_witness :
  exists r s' rest,
    call_method (E := Sim.env) MError Sim.lc_url "boom" [] Sim.s_url =
      Returned r s' /\
    st_stdout s' =
      [] ++ ["ERROR: 2017/11/02 12:00:00 logger.go:133: boom" +:+ nl] ++ rest.
Proof.
  destruct (C4_echo_then_dispatch (E := Sim.env) MError Sim.lc_url "boom" []
              Sim.s_url (Sim_client_ok [] [] false true _))
    as (_ & _ & _ & _ & _ & r & s' & rest & Hrun & Hout).
  exists r, s', rest. split; [exact Hrun | exact Hout].
Defined.

Lemma C5_witness :
  (exists r s',
     sendLog (E := Sim.env) Sim.lc_url
       (buildLogEntry Sim.lc_url WARN "oops" ["tag1"]) Sim.s_down =
       Returned r s' /\
     st_calls s' = [] /\ st_heap s' = st_heap Sim.s_down) /\
  exists s2,
    makeRequest (E := Sim.env) Sim.lc_url
      {| Method := "POST"; URL := "http://localhost:48061/api/v1/logs";
         Header := []; Body := "{}" |} Sim.s_down = Returned tt s2 /\
    st_stdout s2 =
      [] ++
      ["Post http://localhost:48061/api/v1/logs: dial tcp: connection refused"
       +:+ nl].
Proof.
  destruct (C5_remote_errors (E := Sim.env) Sim.lc_url
              (buildLogEntry Sim.lc_url WARN "oops" ["tag1"]) Sim.s_down
              ltac:(cbv; discriminate))
    as [(r & s' & Hrun & _ & _ & _ & Hcalls & _ & Hheap) Hmk].
  split.
  - exists r, s'. split; [exact Hrun|]. split; [exact Hcalls | exact Hheap].
  - destruct (Hmk {| Method := "POST"; URL := "http://localhost:48061/api/v1/logs";
                     Header := []; Body := "{}" |} Sim.s_down)
      as (s2 & Hm & _ & _ & Hout).
    exists s2. split; [exact Hm | exact Hout].
Defined.





Lemma no_write_failed (l : list call) :
  existsb write_failed l = false ->
  forall f d e, CWrite f d (Some e) ∉ l.
Proof.
  induction l as [|c l IH]; simpl; intros H f d e Hin.
  - apply elem_of_nil in Hin. exact Hin.
  - apply orb_false_iff in H as [Hc Hl].
    apply elem_of_cons in Hin as [<-|Hin].
    + discriminate Hc.
    + exact (IH Hl f d e Hin).
Qed.

Lemma returned_final {E : Env} {A : Type} (r : Res A) (a : A) :
  value r = Some a -> r = Returned a (final r).
Proof. destruct r; simpl; intros H; [injection H as ->; reflexivity | discriminate]. Qed.

Lemma C7_witness :
  exists s1 s2,
    log (E := Sim.env) Sim.lc_file INFO "hello" [] Sim.s_file = Returned None s1 /\
    CMkdirAll "/var/log" (octal 7 6 6) None ∈ issued Sim.s_file s1 /\
    log (E := Sim.env) Sim.lc_file WARN "again" [] s1 = Returned None s2 /\
    exists t1 t2,
      Sim.files (st_world s2) !! "/var/log/app.log" =
      Some ("" +:+
            std_line (E := Sim.env) (INFO +:+ ": ") t1 87 "hello" +:+
            std_line (E := Sim.env) (WARN +:+ ": ") t2 87 "again").
Proof.
  destruct (C7_file_sink (E := Sim.env) Sim.lc_file INFO "hello" [] Sim.s_file
              eq_refl ltac:(cbv; discriminate) (Sim_client_ok [] [] false false _))
    as (r & s1 & rest & Hlog & Hmk & _ & _ & _ & _ & _ & Hopen & Hsecond).
  assert (Hv : value (log (E := Sim.env) Sim.lc_file INFO "hello" [] Sim.s_file) =
               Some None)
    by (vm_compute; reflexivity).
  assert (Hr : r = None) by (rewrite Hlog in Hv; injection Hv as ->; reflexivity).
  subst r.
  assert (Hs1 : s1 = final (log (E := Sim.env) Sim.lc_file INFO "hello" [] Sim.s_file))
    by (rewrite Hlog; reflexivity).
  subst s1.
  set (s1 := final (log (E := Sim.env) Sim.lc_file INFO "hello" [] Sim.s_file)) in *.
  set (s2 := final (log (E := Sim.env) Sim.lc_file WARN "again" [] s1)).
  assert (Hv2 : value (log (E := Sim.env) Sim.lc_file WARN "again" [] s1) = Some None)
    by (vm_compute; reflexivity).
  pose proof (returned_final _ _ Hv2 : _ = Returned None s2) as Hlog2.
  assert (Hm : missing_dir (E := Sim.env) (st_world Sim.s_file)
                 (LogTarget Sim.lc_file) = true)
    by (vm_compute; reflexivity).
  assert (Hmr : snd (os_MkdirAll (Env := Sim.env) (st_world Sim.s_file)
                       (dir_of (LogTarget Sim.lc_file)) (octal 7 6 6)) = None)
    by (vm_compute; reflexivity).
  assert (Hd : dir_of (LogTarget Sim.lc_file) = "/var/log")
    by (vm_compute; reflexivity).
  assert (Hc0 : file_content (Env := Sim.env) (st_world Sim.s_file)
                  (LogTarget Sim.lc_file) = None)
    by (vm_compute; reflexivity).
  assert (Hnf : existsb write_failed (issued Sim.s_file s2) = false)
    by (vm_compute; reflexivity).
  specialize (Hmk Hm). rewrite Hmr, Hd in Hmk.
  exists s1, s2. split; [exact Hlog|].
  split; [exact Hmk|].
  split; [exact Hlog2|].
  destruct (Hsecond Sim_posix WARN "again" [] None s2 eq_refl Hlog2 eq_refl
              (no_write_failed _ Hnf)) as (t1 & t2 & Hcontent).
  rewrite Hc0 in Hcontent.
  exists t1, t2. exact Hcontent.
Defined.

(** ** Where the code departs from the claims as worded *)



(** ** Further properties of logger.go *)

Section More.
Context {E : Env}.

(** The leveled call on a client in order, with what it adds to the
    record of calls and to the pool. *)
Lemma call_effects m lc msg labels s :
  client_ok s lc ->
  exists r s' new launched,
    call_method m lc msg labels s = Returned r s' /\
    st_calls s' = st_calls s ++ new /\
    st_go s' = st_go s ++ launched /\
    (RemoteEnabled lc = true ->
     new = [] /\ st_world s' = st_world s /\
     st_heap s' = st_heap (echoed m lc msg s) /\
     (launched = [] \/
      exists body,
        json_Marshal (buildLogEntry lc (level_of m) msg labels) = inl body /\
        launched =
          [(lc, {| Method := "POST"; URL := LogTarget lc;
                   Header := [("Content-Type", "application/json")];
                   Body := body |})])) /\
    (RemoteEnabled lc = false ->
     launched = [] /\ forall req r0, CDo req r0 ∉ new).
Proof.
  intros Hok. pose proof Hok as (Hne & [p Hs] & Hf).
  rewrite (call_method_run m lc msg labels s p Hs).
  pose proof (echoed_ok m lc msg s Hok) as Hok1.
  destruct (String.eqb_spec (LogTarget lc) "") as [Ht|Ht].
  - rewrite (log_empty_target lc _ msg labels _ Ht).
    exists None, (echoed m lc msg s), [], []. simpl.
    rewrite !app_nil_r. repeat split; auto.
    intros req r0. apply not_elem_of_nil.
  - destruct (RemoteEnabled lc) eqn:Hr.
    + unfold log. rewrite Hr. simpl. rewrite (sendLog_run _ _ _ Ht).
      destruct (json_Marshal _) as [body|err] eqn:Hm.
      * destruct (url_Parse (LogTarget lc)) as [err|].
        -- eexists _, _, [], []. split; [reflexivity|]. simpl.
           rewrite !app_nil_r. repeat split; auto. discriminate.
        -- eexists _, _, [], [_]. split; [reflexivity|]. simpl.
           rewrite !app_nil_r. repeat split; try discriminate.
           right. exists body. split; reflexivity.
      * eexists _, _, [], []. split; [reflexivity|]. simpl.
        rewrite !app_nil_r. repeat split; auto. discriminate.
    + pose proof (local_run lc (level_of m) msg labels _ Hr Ht Hok1) as Hrun.
      destruct (open_result lc (echoed m lc msg s)) as [w [f|e]];
        simpl in Hrun; rewrite Hrun.
      * eexists _, _, _, []. split; [reflexivity|]. simpl.
        split; [reflexivity|]. split; [symmetry; apply app_nil_r|].
        split; [discriminate|]. intros _. split; [reflexivity|].
        intros req r0 [Hin|Hin]%elem_of_app.
        -- apply verify_calls_kind in Hin as [(n & r' & H)|(d' & q & r' & H)];
             discriminate.
        -- repeat (apply elem_of_cons in Hin as [Hin|Hin]; [discriminate|]).
           apply elem_of_nil in Hin as [].
      * eexists _, _, _, []. split; [reflexivity|]. simpl.
        split; [reflexivity|]. split; [symmetry; apply app_nil_r|].
        split; [discriminate|]. intros _. split; [reflexivity|].
        intros req r0 [Hin|Hin]%elem_of_app.
        -- apply verify_calls_kind in Hin as [(n & r' & H)|(d' & q & r' & H)];
             discriminate.
        -- apply list_elem_of_singleton in Hin. discriminate.
Qed.

(** X1: the two sinks exclude each other.  A leveled call on a remote
    client makes no system call at all, leaves the world and the file
    logger as they were, and launches at most one request, a POST to
    the log target; a leveled call on a local client launches nothing
    and never calls the transport. *)
Theorem X1_modes_exclusive (m : Leveled) (lc : LoggingClient) (msg : string)
    (labels : list string) (s : State) :
  client_ok s lc ->
  exists r s',
    call_method m lc msg labels s = Returned r s' /\
    (RemoteEnabled lc = true ->
     issued s s' = [] /\
     st_world s' = st_world s /\
     st_heap s' !! FileLogger lc = st_heap s !! FileLogger lc /\
     (st_go s' = st_go s \/
      exists req,
        st_go s' = st_go s ++ [(lc, req)] /\
        Method req = "POST" /\ URL req = LogTarget lc)) /\
    (RemoteEnabled lc = false ->
     st_go s' = st_go s /\ forall req r0, CDo req r0 ∉ issued s s').
Proof.
  intros Hok. pose proof Hok as (Hne & _ & _).
  destruct (call_effects m lc msg labels s Hok)
    as (r & s' & new & launched & Hrun & Hcalls & Hgo & Hrem & Hloc).
  exists r, s'. split; [exact Hrun|].
  rewrite (issued_app _ _ _ Hcalls). split.
  - intros Hr. destruct (Hrem Hr) as (-> & Hw & Hh & Hl).
    split; [reflexivity|]. split; [exact Hw|]. split.
    + rewrite Hh. unfold echoed. simpl.
      apply list_lookup_insert_ne. exact Hne.
    + destruct Hl as [->|(body & _ & ->)].
      * left. rewrite Hgo. apply app_nil_r.
      * right. eexists. split; [exact Hgo|]. split; reflexivity.
  - intros Hr. destruct (Hloc Hr) as (-> & Hno).
    split; [rewrite Hgo; apply app_nil_r | exact Hno].
Qed.

(** X2: the goroutine never panics and always returns; it calls the
    transport once, and closes the body of the response exactly when
    the transport gave one: on a transport error nothing is closed
    and the error is printed, on success the body is closed and
    nothing is printed.  It touches neither loggers nor pool. *)
Theorem X2_makeRequest_closes_body (lc : LoggingClient) (req : Request)
    (s : State) :
  exists s',
    makeRequest lc req s = Returned tt s' /\
    st_heap s' = st_heap s /\
    st_go s' = st_go s /\
    match snd (client_Do (st_world s) req) with
    | inl resp =>
        issued s s' = [CDo req (inl resp); CBodyClose resp] /\
        st_stdout s' = st_stdout s /\
        st_world s' = body_Close (fst (client_Do (st_world s) req)) resp
    | inr err =>
        issued s s' = [CDo req (inr err)] /\
        st_stdout s' = st_stdout s ++ [Error_ err +:+ nl] /\
        st_world s' = fst (client_Do (st_world s) req)
    end.
Proof.
  unfold makeRequest. unfold_M.
  destruct (client_Do (st_world s) req) as [w [resp|err]]; simpl.
  - eexists. split; [reflexivity|]. simpl.
    split; [reflexivity|]. split; [reflexivity|].
    split; [|split; reflexivity].
    apply issued_app. simpl. rewrite <- app_assoc. reflexivity.
  - eexists. split; [reflexivity|]. simpl.
    split; [reflexivity|]. split; [reflexivity|].
    split; [|split; reflexivity].
    apply issued_app. reflexivity.
Qed.

(** X3: a client whose standard-output logger is nil (a struct literal
    instead of [NewClient]) makes every leveled method panic at once,
    before anything is printed, opened or launched; [Trace] alone is
    still safe. *)
Theorem X3_nil_stdout_logger_panics (m : Leveled) (lc : LoggingClient)
    (msg : string) (labels : list string) (s : State) :
  st_heap s !! StdOutLogger lc = None ->
  call_method m lc msg labels s = Panicked "nil pointer dereference" s /\
  Trace lc msg labels s = Returned tt s.
Proof.
  intros Hnil. split; [|reflexivity].
  destruct m; simpl; unfold Info, Debug, Warn, Error; unfold_M;
    rewrite Hnil; reflexivity.
Qed.

Lemma client_ok_heap s s' lc :
  st_heap s' = st_heap s -> client_ok s lc -> client_ok s' lc.
Proof. intros Hh Hok. unfold client_ok in *. rewrite Hh. exact Hok. Qed.

(** The loggers after a leveled call: the client's own two may have
    changed, every other one is as before. *)
Lemma call_heap m lc msg labels s :
  client_ok s lc ->
  exists r s',
    call_method m lc msg labels s = Returned r s' /\
    client_ok s' lc /\
    forall l,
      l <> StdOutLogger lc -> l <> FileLogger lc ->
      st_heap s' !! l = st_heap s !! l.
Proof.
  intros Hok. pose proof Hok as (Hne & [p Hs] & [q [o Hf]]).
  rewrite (call_method_run m lc msg labels s p Hs).
  pose proof (echoed_ok m lc msg s Hok) as Hok1.
  destruct (log_run lc (level_of m) msg labels _ Hok1)
    as (r & s' & Hlog & _ & [Hh|(f & _ & _ & _ & Hh)]).
  - exists r, s'. split; [exact Hlog|]. split.
    + exact (client_ok_heap _ _ _ Hh Hok1).
    + intros l Hl _. rewrite Hh. unfold echoed. simpl.
      apply list_lookup_insert_ne. congruence.
  - exists r, s'. split; [exact Hlog|]. split.
    + destruct Hok1 as (_ & [p1 Hs1] & [q1 [o1 Hf1]]).
      split; [exact Hne|]. rewrite Hh. split.
      * exists p1. rewrite list_lookup_insert_ne by congruence. exact Hs1.
      * eexists _, _. apply list_lookup_insert_eq.
        eapply lookup_lt_Some, Hf1.
    + intros l Hl Hl'. rewrite Hh. unfold echoed. simpl.
      rewrite !list_lookup_insert_ne by congruence. reflexivity.
Qed.

(** X4: the file sink closes what it opens, on every path.  Once the
    file has opened, the last call the sink issues is the [Close] of
    that file and it is the only close, whether the line was written
    or the sink panicked on a nil file logger; in that second case no
    write was issued. *)
Theorem X4_file_closed_on_every_path (lc : LoggingClient) (pre msg : string)
    (s : State) (w : world) (f : File) :
  LogTarget lc <> "" ->
  open_result lc s = (w, inl f) ->
  (exists before cr,
     issued s (final (saveToLogFile lc pre msg s)) = before ++ [CClose f cr] /\
     forall g r, CClose g r ∉ before) /\
  (st_heap s !! FileLogger lc = None ->
   value (saveToLogFile lc pre msg s) = None /\
   forall g d r,
     CWrite g d r ∉ issued s (final (saveToLogFile lc pre msg s))).
Proof.
  intros Ht Ho.
  assert (Hnc : forall g r c,
    c ∈ verify_calls (st_world s) (LogTarget lc) -> c <> CClose g r).
  { intros g r c Hin ->.
    apply verify_calls_kind in Hin as [(n & r' & H)|(d' & q & r' & H)];
      discriminate. }
  destruct (st_heap s !! FileLogger lc) as [L|] eqn:HL.
  - rewrite (saveToLogFile_ok lc pre msg s w f L Ht Ho HL). simpl. split.
    + eexists (verify_calls (st_world s) (LogTarget lc) ++ [_; _]), _. split.
      * apply issued_app. simpl. rewrite <- !app_assoc. reflexivity.
      * intros g r [Hin|Hin]%elem_of_app.
        -- exact (Hnc g r _ Hin eq_refl).
        -- repeat (apply elem_of_cons in Hin as [Hin|Hin]; [discriminate|]).
           apply elem_of_nil in Hin as [].
    + discriminate.
  - assert (Hrun : saveToLogFile lc pre msg s =
      Panicked "nil pointer dereference"
        (mkState (fst (file_close w f))
           (st_stdout (verify_state (LogTarget lc) s))
           (st_heap s)
           (st_calls (verify_state (LogTarget lc) s) ++
              [COpenFile (LogTarget lc) open_flags open_perm (inl f);
               CClose f (snd (file_close w f))])
           (st_go s))).
    { unfold saveToLogFile. rewrite (target_set lc Ht).
      unfold mbind at 1, M_bind, bind. rewrite verifyLogDirectory_run.
      unfold open_result in Ho. unfold_M. simpl.
      fold open_flags open_perm. rewrite Ho. simpl. rewrite HL. simpl.
      destruct (file_close w f) as [w4 cr]. simpl.
      rewrite <- !app_assoc. reflexivity. }
    rewrite Hrun. cbn [final value].
    assert (Hi : issued s
      (mkState (fst (file_close w f))
         (st_stdout (verify_state (LogTarget lc) s))
         (st_heap s)
         (st_calls (verify_state (LogTarget lc) s) ++
            [COpenFile (LogTarget lc) open_flags open_perm (inl f);
             CClose f (snd (file_close w f))])
         (st_go s)) =
      (verify_calls (st_world s) (LogTarget lc) ++
         [COpenFile (LogTarget lc) open_flags open_perm (inl f)]) ++
      [CClose f (snd (file_close w f))]).
    { apply issued_app. simpl. rewrite <- !app_assoc. reflexivity. }
    rewrite Hi. split.
    + eexists _, _. split; [reflexivity|].
      intros g r [Hin|Hin]%elem_of_app.
      * exact (Hnc g r _ Hin eq_refl).
      * apply list_elem_of_singleton in Hin. discriminate.
    + intros _. split; [reflexivity|].
      intros g d r [[Hin|Hin]%elem_of_app|Hin]%elem_of_app.
      * apply verify_calls_kind in Hin as [(n & r' & H)|(d' & q & r' & H)];
          discriminate.
      * apply list_elem_of_singleton in Hin. discriminate.
      * apply list_elem_of_singleton in Hin. discriminate.
Qed.

(** X5: [NewClient] returns the client with the three values it was
    given and two new loggers placed after all existing ones: the
    first writes to standard output, the second has no writer yet,
    both have an empty prefix and the date, time and short-file flags.
    It prints nothing and makes no system call.  Clients that were in
    order stay so, and share no logger with the new client. *)
Theorem X5_NewClient_fresh (name : string) (remote : bool) (target : string)
    (s : State) :
  exists lc s',
    NewClient name remote target s = Returned lc s' /\
    OwningServiceName lc = name /\ RemoteEnabled lc = remote /\
    LogTarget lc = target /\
    StdOutLogger lc = length (st_heap s) /\
    FileLogger lc = S (length (st_heap s)) /\
    st_heap s' =
      st_heap s ++
      [{| prefix := ""; flag := Z.lor (Z.lor Ldate Ltime) Lshortfile;
          out := Some WStdout |};
       {| prefix := ""; flag := Z.lor (Z.lor Ldate Ltime) Lshortfile;
          out := None |}] /\
    st_stdout s' = st_stdout s /\ st_calls s' = st_calls s /\
    st_world s' = st_world s /\ st_go s' = st_go s /\
    client_ok s' lc /\
    forall old,
      client_ok s old ->
      client_ok s' old /\
      StdOutLogger old <> StdOutLogger lc /\ StdOutLogger old <> FileLogger lc /\
      FileLogger old <> StdOutLogger lc /\ FileLogger old <> FileLogger lc.
Proof.
  unfold NewClient, alloc. unfold_M.
  set (Lso := {| prefix := ""; flag := stdFlags; out := Some WStdout |}).
  set (h1 := st_heap s ++ [Lso]).
  cbn [st_heap st_world st_stdout st_calls st_go].
  rewrite (list_lookup_middle h1 [] _ (length h1) eq_refl).
  cbn [st_heap st_world st_stdout st_calls st_go prefix out].
  rewrite (insert_app_r_alt h1 _ (length h1)) by lia.
  rewrite Nat.sub_diag. simpl.
  eexists _, _. split; [reflexivity|]. simpl.
  assert (Hlen : length h1 = S (length (st_heap s)))
    by (subst h1; rewrite length_app; simpl; lia).
  split; [reflexivity|]. split; [reflexivity|]. split; [reflexivity|].
  split; [reflexivity|]. split; [exact Hlen|].
  split; [subst h1; rewrite <- app_assoc; reflexivity|].
  split; [reflexivity|]. split; [reflexivity|].
  split; [reflexivity|]. split; [reflexivity|].
  split.
  - split; [simpl; lia|]. simpl. split.
    + exists "". subst h1. rewrite <- app_assoc.
      apply list_lookup_middle. reflexivity.
    + exists "", None. apply list_lookup_middle. reflexivity.
  - intros old (Hne & [p Hs] & [q [o Hf]]).
    pose proof (lookup_lt_Some _ _ _ Hs) as Hlts.
    pose proof (lookup_lt_Some _ _ _ Hf) as Hltf.
    split; [|simpl; lia].
    split; [exact Hne|]. simpl. subst h1. split.
    + exists p. rewrite <- app_assoc. rewrite lookup_app_l by exact Hlts. exact Hs.
    + exists q, o. rewrite <- app_assoc. rewrite lookup_app_l by exact Hltf. exact Hf.
Qed.

(** X6: clients do not interfere through their loggers.  When two
    clients in order share no logger, a leveled call on the first
    returns and leaves both loggers of the second exactly as they
    were, prefix included, and the second client in order. *)
Theorem X6_clients_do_not_interfere (m : Leveled) (a b : LoggingClient)
    (msg : string) (labels : list string) (s : State) :
  client_ok s a ->
  client_ok s b ->
  StdOutLogger b <> StdOutLogger a -> StdOutLogger b <> FileLogger a ->
  FileLogger b <> StdOutLogger a -> FileLogger b <> FileLogger a ->
  exists r s',
    call_method m a msg labels s = Returned r s' /\
    st_heap s' !! StdOutLogger b = st_heap s !! StdOutLogger b /\
    st_heap s' !! FileLogger b = st_heap s !! FileLogger b /\
    client_ok s' a /\ client_ok s' b.
Proof.
  intros Ha Hb H1 H2 H3 H4.
  destruct (call_heap m a msg labels s Ha) as (r & s' & Hrun & Ha' & Hframe).
  exists r, s'. split; [exact Hrun|].
  pose proof (Hframe _ H1 H2) as Hso. pose proof (Hframe _ H3 H4) as Hfl.
  split; [exact Hso|]. split; [exact Hfl|]. split; [exact Ha'|].
  destruct Hb as (Hne & Hs & Hf). unfold client_ok.
  rewrite Hso, Hfl. auto.
Qed.

(** X7: a client is usable as soon as it is made.  In every state and
    for all arguments, [NewClient] followed by any leveled method
    returns without a panic, and the echo of the message is the first
    thing added to standard output. *)
Theorem X7_fresh_client_usable (name : string) (remote : bool)
    (target : string) (m : Leveled) (msg : string) (labels : list string)
    (s : State) :
  exists lc s1 r s2 rest,
    NewClient name remote target s = Returned lc s1 /\
    call_method m lc msg labels s1 = Returned r s2 /\
    st_stdout s2 =
      st_stdout s ++
      [std_line (tag_of m) (clock (st_world s)) (site_of m) msg] ++ rest.
Proof.
  destruct (NewClient_ok name remote target s)
    as (lc & s1 & Hnew & _ & _ & _ & Hok & Hout & _ & Hw & _).
  pose proof Hok as (_ & [p Hs] & _).
  destruct (log_run lc (level_of m) msg labels _ (echoed_ok m lc msg s1 Hok))
    as (r & s2 & Hlog & [extra Hextra] & _).
  exists lc, s1, r, s2, extra. split; [exact Hnew|]. split.
  - rewrite (call_method_run m lc msg labels s1 p Hs). exact Hlog.
  - rewrite Hextra. unfold echoed. simpl. rewrite Hout, Hw.
    rewrite <- app_assoc. reflexivity.
Qed.

Lemma split_no_slash path :
  has_slash path = false -> filepath_Split path = ("", path).
Proof.
  induction path as [|c rest IH]; simpl; [reflexivity|].
  intros [Hc Hr]%orb_false_iff. rewrite (IH Hr), Hc. reflexivity.
Qed.

Lemma trim_slashes s :
  exists tail,
    s = strings_TrimRight s "/" +:+ tail /\ all_slashes tail = true.
Proof.
  induction s as [|c r (tail & Hr & Hall)]; simpl.
  - exists "". split; reflexivity.
  - destruct (strings_TrimRight r "/") as [|d r'] eqn:Ht.
    + change (r = tail) in Hr. subst tail.
      change (Ascii.eqb c "/" || false) with (is_slash c || false).
      rewrite orb_false_r. destruct (is_slash c) eqn:Hc.
      * exists (String c r). split; [reflexivity|]. simpl. rewrite Hc. exact Hall.
      * exists r. split; [reflexivity | exact Hall].
    + exists tail. split; [|exact Hall].
      change (String c r = String c (String d r' +:+ tail)). f_equal. exact Hr.
Qed.

Lemma trim_no_trailing_slash s :
  ends_with_slash (strings_TrimRight s "/") = false.
Proof.
  induction s as [|c r IH]; simpl; [reflexivity|].
  destruct (strings_TrimRight r "/") as [|d r'] eqn:Ht.
  - change (Ascii.eqb c "/" || false) with (is_slash c || false).
    rewrite orb_false_r. destruct (is_slash c) eqn:Hc; simpl; [reflexivity|exact Hc].
  - exact IH.
Qed.

Lemma split_dir_ends path :
  fst (filepath_Split path) = "" \/
  ends_with_slash (fst (filepath_Split path)) = true.
Proof.
  induction path as [|c rest IH]; simpl; [left; reflexivity|].
  destruct (filepath_Split rest) as [d f]. simpl in IH.
  destruct d as [|d0 d'].
  - destruct (is_slash c) eqn:Hc; simpl; [right; exact Hc | left; reflexivity].
  - right. destruct IH as [IH|IH]; [discriminate|]. exact IH.
Qed.

(** X8: the directory the file sink looks at and may create is the
    target cut just before one of its slashes, and it never ends in a
    slash itself: [a//b/app.log] gives [a//b], and a target with
    nothing but slashes before the file name gives no directory. *)
Theorem X8_directory_is_a_prefix (path : string) :
  nonempty (dir_of path) = true ->
  ends_with_slash (dir_of path) = false /\
  exists rest, path = dir_of path +:+ "/" +:+ rest.
Proof.
  intros Hne. unfold dir_of in *. split; [apply trim_no_trailing_slash|].
  destruct (trim_slashes (fst (filepath_Split path))) as (tail & Hd & Hall).
  pose proof (filepath_Split_join path) as Hjoin.
  pose proof (trim_no_trailing_slash (fst (filepath_Split path))) as Hnt.
  destruct tail as [|c tail'].
  - rewrite append_nil_r in Hd.
    destruct (split_dir_ends path) as [He|He].
    + rewrite He in Hne. discriminate.
    + rewrite <- Hd in Hnt. congruence.
  - simpl in Hall. apply andb_true_iff in Hall as [Hc _].
    apply Ascii.eqb_eq in Hc. subst c.
    exists (tail' +:+ snd (filepath_Split path)).
    rewrite <- Hjoin at 1. rewrite Hd at 1.
    rewrite append_assoc. reflexivity.
Qed.

(** X9: a target with no directory part costs no directory work.  For
    a bare file name, alone or directly under the root,
    [verifyLogDirectory] does nothing at all; the file sink of a local
    client then starts with the [OpenFile] itself, in the world as it
    found it. *)
Theorem X9_bare_name_skips_directory (lc : LoggingClient) (lvl : LogLevel)
    (msg : string) (labels : list string) (s : State) :
  has_slash (LogTarget lc) = false ->
  (forall s0,
     verifyLogDirectory (LogTarget lc) s0 = Returned tt s0 /\
     verifyLogDirectory ("/" +:+ LogTarget lc) s0 = Returned tt s0) /\
  (RemoteEnabled lc = false -> LogTarget lc <> "" -> client_ok s lc ->
   exists r s' rest,
     log lc lvl msg labels s = Returned r s' /\
     issued s s' =
       COpenFile (LogTarget lc) open_flags open_perm
         (snd (os_OpenFile (st_world s) (LogTarget lc) open_flags open_perm))
       :: rest).
Proof.
  intros Hns.
  assert (Hd : dir_of (LogTarget lc) = "").
  { unfold dir_of. rewrite (split_no_slash _ Hns). reflexivity. }
  assert (Hd' : dir_of ("/" +:+ LogTarget lc) = "").
  { unfold dir_of. change ("/" +:+ LogTarget lc) with (String "/" (LogTarget lc)).
    simpl. rewrite (split_no_slash _ Hns). reflexivity. }
  assert (Hv : forall p s0, dir_of p = "" -> verify_state p s0 = s0).
  { intros p s0 Hp. unfold verify_state, verify_world, creating_notice,
      verify_calls, missing_dir. rewrite Hp. simpl.
    rewrite !app_nil_r. apply set_same. }
  split.
  - intros s0. rewrite !verifyLogDirectory_run, !Hv by assumption. split; reflexivity.
  - intros Hr Ht Hok.
    pose proof (local_run lc lvl msg labels s Hr Ht Hok) as Hrun.
    unfold open_result in Hrun.
    assert (Hw : verify_world (st_world s) (LogTarget lc) = st_world s).
    { unfold verify_world, missing_dir. rewrite Hd. reflexivity. }
    assert (Hc : verify_calls (st_world s) (LogTarget lc) = []).
    { unfold verify_calls. rewrite Hd. reflexivity. }
    rewrite Hw, Hc in Hrun.
    destruct (os_OpenFile (st_world s) (LogTarget lc) open_flags open_perm)
      as [w [f|e]]; simpl in Hrun |- *.
    + eexists _, _, _. split; [exact Hrun|]. apply issued_app. reflexivity.
    + eexists _, _, _. split; [exact Hrun|]. apply issued_app. reflexivity.
Qed.

(** X10: a line that could not be written is lost in silence.  Once
    the file has opened, the local call returns nil whatever the write
    and the close answer: a refused write is neither returned nor
    printed, and the file is closed all the same. *)
Theorem X10_write_failure_is_silent (lc : LoggingClient) (lvl : LogLevel)
    (msg : string) (labels : list string) (s : State) (w : world) (f : File) :
  RemoteEnabled lc = false ->
  LogTarget lc <> "" ->
  client_ok s lc ->
  open_result lc s = (w, inl f) ->
  exists s' wr cr,
    log lc lvl msg labels s = Returned None s' /\
    wr = snd (file_write w f (std_line (lvl +:+ ": ") (clock w) 87 msg)) /\
    issued s s' =
      verify_calls (st_world s) (LogTarget lc) ++
      [COpenFile (LogTarget lc) open_flags open_perm (inl f);
       CWrite f (std_line (lvl +:+ ": ") (clock w) 87 msg) wr;
       CClose f cr] /\
    st_stdout s' = st_stdout s ++ creating_notice (st_world s) (LogTarget lc) /\
    st_go s' = st_go s.
Proof.
  intros Hr Ht Hok Ho.
  pose proof (local_run lc lvl msg labels s Hr Ht Hok) as Hrun.
  rewrite Ho in Hrun. simpl in Hrun.
  eexists _, _, _. split; [exact Hrun|]. split; [reflexivity|].
  split; [apply issued_app; reflexivity|]. split; reflexivity.
Qed.

(** A remote call whose entry encodes and whose target parses. *)
Lemma remote_call_run m lc msg labels s body :
  client_ok s lc ->
  RemoteEnabled lc = true ->
  LogTarget lc <> "" ->
  url_Parse (LogTarget lc) = None ->
  json_Marshal (buildLogEntry lc (level_of m) msg labels) = inl body ->
  call_method m lc msg labels s =
  Returned None
    (set_go (st_go s ++
       [(lc, {| Method := "POST"; URL := LogTarget lc;
                Header := [("Content-Type", "application/json")];
                Body := body |})]) (echoed m lc msg s)).
Proof.
  intros (Hne & [p Hs] & Hf) Hr Ht Hu Hm.
  rewrite (call_method_run m lc msg labels s p Hs).
  unfold log. rewrite Hr. simpl. rewrite (sendLog_run _ _ _ Ht), Hm, Hu.
  reflexivity.
Qed.

(** X11: remote requests are launched in call order, one per call.
    Two leveled calls in a row on a remote client, each with an entry
    that encodes, add to the pool the request of the first and then
    the request of the second, each a POST to the log target with the
    JSON content type and the encoding of its own entry as body. *)
Theorem X11_requests_in_call_order (m1 m2 : Leveled) (lc : LoggingClient)
    (msg1 msg2 : string) (labels1 labels2 : list string) (s : State)
    (body1 body2 : string) :
  client_ok s lc ->
  RemoteEnabled lc = true ->
  LogTarget lc <> "" ->
  url_Parse (LogTarget lc) = None ->
  json_Marshal
    {| Level := level_of m1; Message := msg1; Labels := labels1;
       OriginService := OwningServiceName lc |} = inl body1 ->
  json_Marshal
    {| Level := level_of m2; Message := msg2; Labels := labels2;
       OriginService := OwningServiceName lc |} = inl body2 ->
  exists s1 s2,
    call_method m1 lc msg1 labels1 s = Returned None s1 /\
    call_method m2 lc msg2 labels2 s1 = Returned None s2 /\
    st_go s2 =
      st_go s ++
      [(lc, {| Method := "POST"; URL := LogTarget lc;
               Header := [("Content-Type", "application/json")];
               Body := body1 |});
       (lc, {| Method := "POST"; URL := LogTarget lc;
               Header := [("Content-Type", "application/json")];
               Body := body2 |})] /\
    issued s s2 = [].
Proof.
  intros Hok Hr Ht Hu Hm1 Hm2.
  pose proof (remote_call_run m1 lc msg1 labels1 s body1 Hok Hr Ht Hu Hm1) as H1.
  match type of H1 with _ = Returned None ?S1 => set (s1 := S1) in * end.
  assert (Hok1 : client_ok s1 lc).
  { apply (client_ok_heap (echoed m1 lc msg1 s)); [reflexivity|].
    apply echoed_ok. exact Hok. }
  pose proof (remote_call_run m2 lc msg2 labels2 s1 body2 Hok1 Hr Ht Hu Hm2) as H2.
  eexists _, _. split; [exact H1|]. split; [exact H2|]. split.
  - simpl. rewrite <- app_assoc. reflexivity.
  - unfold issued. simpl. apply drop_all.
Qed.

(** X12: the directory is made once.  On a system where a directory
    that was made is then found, a second [verifyLogDirectory] for the
    same target after a first one that made the directory asks for the
    status only: it prints nothing and makes nothing. *)
Theorem X12_directory_made_once (path : string) (s : State) :
  (forall w d p w',
     os_MkdirAll w d p = (w', None) -> os_Stat w' d = None) ->
  missing_dir (st_world s) path = true ->
  snd (os_MkdirAll (st_world s) (dir_of path) (octal 7 6 6)) = None ->
  exists s1 s2,
    verifyLogDirectory path s = Returned tt s1 /\
    issued s s1 =
      [CStat (dir_of path) (os_Stat (st_world s) (dir_of path));
       CMkdirAll (dir_of path) (octal 7 6 6) None] /\
    verifyLogDirectory path s1 = Returned tt s2 /\
    issued s1 s2 = [CStat (dir_of path) None] /\
    st_stdout s2 = st_stdout s1 /\
    st_world s2 = st_world s1.
Proof.
  intros Hlaw Hmiss Hmk.
  pose proof Hmiss as [Hne Hnx]%andb_true_iff.
  destruct (os_MkdirAll (st_world s) (dir_of path) (octal 7 6 6))
    as [w1 r1] eqn:Hm. simpl in Hmk. subst r1.
  pose proof (Hlaw _ _ _ _ Hm) as Hstat.
  exists (verify_state path s), (verify_state path (verify_state path s)).
  rewrite !verifyLogDirectory_run.
  assert (Hw1 : verify_world (st_world s) path = w1).
  { unfold verify_world. rewrite Hmiss, Hm. reflexivity. }
  assert (Hmiss1 : missing_dir w1 path = false).
  { unfold missing_dir. rewrite Hstat. simpl. apply andb_false_r. }
  split; [reflexivity|]. split.
  - apply issued_app. unfold verify_state, verify_calls. simpl.
    rewrite Hne, Hnx, Hm. reflexivity.
  - split; [reflexivity|]. split; [|split].
    + apply issued_app. unfold verify_state at 1. simpl. rewrite Hw1.
      unfold verify_calls at 2. rewrite Hne, Hstat. reflexivity.
    + unfold verify_state at 1. simpl. rewrite Hw1. unfold creating_notice at 2.
      rewrite Hmiss1. apply app_nil_r.
    + unfold verify_state at 1. simpl. rewrite Hw1. unfold verify_world.
      rewrite Hmiss1. reflexivity.
Qed.





(** X14: what a remote call returns is decided by the client and the
    entry alone.  Two leveled calls with the same arguments on the
    same remote client return the same value from any two states in
    which the client is in order, whatever the files, the loggers'
    prefixes, the output so far and the pool. *)
Theorem X14_remote_result_ignores_state (m : Leveled) (lc : LoggingClient)
    (msg : string) (labels : list string) (s1 s2 : State) :
  RemoteEnabled lc = true ->
  client_ok s1 lc ->
  client_ok s2 lc ->
  value (call_method m lc msg labels s1) = value (call_method m lc msg labels s2).
Proof.
  intros Hr (_ & [p1 Hs1] & _) (_ & [p2 Hs2] & _).
  rewrite (call_method_run m lc msg labels s1 p1 Hs1).
  rewrite (call_method_run m lc msg labels s2 p2 Hs2).
  unfold log. rewrite Hr. simpl.
  destruct (String.eqb_spec (LogTarget lc) "") as [Ht|Ht].
  - unfold sendLog. rewrite Ht. reflexivity.
  - rewrite !(sendLog_run _ _ _ Ht).
    destruct (json_Marshal _) as [body|err]; [|reflexivity].
    destruct (url_Parse (LogTarget lc)) as [err|]; reflexivity.
Qed.

End More.

(** ** Runs of the further properties on the small operating system *)

Lemma X1_witness :
  exists r s',
    call_method (E := Sim.env) MWarn Sim.lc_url "oops" ["tag1"] Sim.s_url =
      Returned r s' /\
    issued Sim.s_url s' = [] /\
    st_world s' = st_world Sim.s_url.
Proof.
  destruct (X1_modes_exclusive (E := Sim.env) MWarn Sim.lc_url "oops" ["tag1"]
              Sim.s_url (Sim_client_ok [] [] false true _))
    as (r & s' & Hrun & Hrem & _).
  destruct (Hrem eq_refl) as (Hi & Hw & _).
  exists r, s'. split; [exact Hrun|]. split; [exact Hi | exact Hw].
Defined.

Lemma X3_witness :
  call_method (E := Sim.env) MInfo (Sim.client false "") "hello" []
    (Sim.boot [] [] false) =
  Panicked "nil pointer dereference" (Sim.boot [] [] false).
Proof.
  exact (proj1 (X3_nil_stdout_logger_panics (E := Sim.env) MInfo
                  (Sim.client false "") "hello" [] (Sim.boot [] [] false)
                  eq_refl)).
Defined.

Lemma Sim_open_file :
  open_result (E := Sim.env) Sim.lc_file Sim.s_file =
  (fst (open_result (E := Sim.env) Sim.lc_file Sim.s_file), inl 0%nat).
Proof.
  apply injective_projections; [reflexivity|]. vm_compute. reflexivity.
Qed.

Lemma X4_witness :
  exists before cr,
    issued Sim.s_file
      (final (saveToLogFile (E := Sim.env) Sim.lc_file "INFO" "hello" Sim.s_file)) =
    before ++ [CClose 0%nat cr] /\
    forall g r, CClose g r ∉ before.
Proof.
  exact (proj1 (X4_file_closed_on_every_path (E := Sim.env) Sim.lc_file
                  "INFO" "hello" Sim.s_file _ 0%nat
                  ltac:(cbv; discriminate) Sim_open_file)).
Defined.

Lemma Sim_two_first_ok : client_ok Sim.s_two Sim.lc_file.
Proof.
  split; [discriminate|]. split.
  - exists "". reflexivity.
  - exists "", None. reflexivity.
Qed.

Lemma Sim_two_second_ok : client_ok Sim.s_two Sim.lc_second.
Proof.
  split; [discriminate|]. split.
  - exists "". reflexivity.
  - exists "", None. reflexivity.
Qed.

Lemma X6_witness :
  exists r s',
    call_method (E := Sim.env) MInfo Sim.lc_file "hello" [] Sim.s_two =
      Returned r s' /\
    st_heap s' !! 2%nat = st_heap Sim.s_two !! 2%nat /\
    st_heap s' !! 3%nat = st_heap Sim.s_two !! 3%nat /\
    client_ok s' Sim.lc_file /\ client_ok s' Sim.lc_second.
Proof.
  exact (X6_clients_do_not_interfere (E := Sim.env) MInfo Sim.lc_file
           Sim.lc_second "hello" [] Sim.s_two Sim_two_first_ok Sim_two_second_ok
           ltac:(cbv; discriminate) ltac:(cbv; discriminate)
           ltac:(cbv; discriminate) ltac:(cbv; discriminate)).
Defined.

Lemma X8_witness :
  ends_with_slash (dir_of "a//b/app.log") = false /\
  exists rest, "a//b/app.log" = "a//b" +:+ "/" +:+ rest.
Proof.
  exact (X8_directory_is_a_prefix "a//b/app.log" eq_refl).
Defined.

Lemma X9_witness :
  exists r s' rest,
    log (E := Sim.env) Sim.lc_bare INFO "hello" [] Sim.s_bare = Returned r s' /\
    issued Sim.s_bare s' =
      COpenFile "app.log" open_flags open_perm
        (snd (os_OpenFile (Env := Sim.env) (st_world Sim.s_bare) "app.log"
                open_flags open_perm)) :: rest.
Proof.
  exact (proj2 (X9_bare_name_skips_directory (E := Sim.env) Sim.lc_bare INFO
                  "hello" [] Sim.s_bare eq_refl)
           eq_refl ltac:(cbv; discriminate) (Sim_client_ok [] [] false false _)).
Defined.

Lemma Sim_full_ok : client_ok Sim.s_full Sim.lc_bare.
Proof.
  split; [discriminate|]. split.
  - exists "". reflexivity.
  - exists "", None. reflexivity.
Qed.

Lemma Sim_full_open :
  open_result (E := Sim.env_full) Sim.lc_bare Sim.s_full =
  (fst (open_result (E := Sim.env_full) Sim.lc_bare Sim.s_full), inl 0%nat).
Proof.
  apply injective_projections; [reflexivity|]. vm_compute. reflexivity.
Qed.

Lemma X10_witness :
  exists s' cr,
    log (E := Sim.env_full) Sim.lc_bare INFO "hello" [] Sim.s_full =
      Returned None s' /\
    issued Sim.s_full s' =
      [] ++
      [COpenFile "app.log" open_flags open_perm (inl 0%nat);
       CWrite 0%nat ("INFO: 2017/11/02 12:00:00 logger.go:87: hello" +:+ nl)
         (Some Sim.disk_full);
       CClose 0%nat cr] /\
    st_stdout s' = [] ++ [].
Proof.
  destruct (X10_write_failure_is_silent (E := Sim.env_full) Sim.lc_bare INFO
              "hello" [] Sim.s_full _ 0%nat eq_refl ltac:(cbv; discriminate)
              Sim_full_ok Sim_full_open)
    as (s' & wr & cr & Hrun & Hwr & Hi & Hout & _).
  exists s', cr. split; [exact Hrun|].
  simpl in Hwr. subst wr.
  split; [exact Hi | exact Hout].
Defined.

Lemma X11_witness :
  exists body1 body2 s1 s2,
    Sim.Marshal
      {| Level := WARN; Message := "oops"; Labels := ["tag1"];
         OriginService := "svc" |} = inl body1 /\
    Sim.Marshal
      {| Level := ERROR; Message := "boom"; Labels := [];
         OriginService := "svc" |} = inl body2 /\
    call_method (E := Sim.env) MWarn Sim.lc_url "oops" ["tag1"] Sim.s_url =
      Returned None s1 /\
    call_method (E := Sim.env) MError Sim.lc_url "boom" [] s1 = Returned None s2 /\
    st_go s2 =
      [] ++
      [(Sim.lc_url,
        {| Method := "POST"; URL := "http://localhost:48061/api/v1/logs";
           Header := [("Content-Type", "application/json")]; Body := body1 |});
       (Sim.lc_url,
        {| Method := "POST"; URL := "http://localhost:48061/api/v1/logs";
           Header := [("Content-Type", "application/json")]; Body := body2 |})].
Proof.
  eexists _, _.
  destruct (X11_requests_in_call_order (E := Sim.env) MWarn MError Sim.lc_url
              "oops" "boom" ["tag1"] [] Sim.s_url _ _
              (Sim_client_ok [] [] false true _) eq_refl
              ltac:(cbv; discriminate) eq_refl eq_refl eq_refl)
    as (s1 & s2 & H1 & H2 & Hgo & _).
  exists s1, s2. split; [reflexivity|]. split; [reflexivity|].
  split; [exact H1|]. split; [exact H2 | exact Hgo].
Defined.

Lemma Sim_made_is_found w d p w' :
  Sim.MkdirAll w d p = (w', None) -> Sim.Stat w' d = None.
Proof.
  unfold Sim.MkdirAll, Sim.Stat, Sim.exists_. intros H.
  repeat case_bool_decide; simplify_eq; simpl in *;
    try reflexivity; exfalso; set_solver.
Qed.

Lemma X12_witness :
  exists s1 s2,
    verifyLogDirectory (E := Sim.env) "/var/log/app.log" Sim.s_file =
      Returned tt s1 /\
    verifyLogDirectory (E := Sim.env) "/var/log/app.log" s1 = Returned tt s2 /\
    issued s1 s2 = [CStat "/var/log" None] /\
    st_stdout s2 = st_stdout s1.
Proof.
  assert (Hm : missing_dir (E := Sim.env) (st_world Sim.s_file)
                 "/var/log/app.log" = true)
    by (vm_compute; reflexivity).
  assert (Hmr : snd (os_MkdirAll (Env := Sim.env) (st_world Sim.s_file)
                       (dir_of "/var/log/app.log") (octal 7 6 6)) = None)
    by (vm_compute; reflexivity).
  destruct (X12_directory_made_once (E := Sim.env) "/var/log/app.log" Sim.s_file
              Sim_made_is_found Hm Hmr)
    as (s1 & s2 & H1 & _ & H2 & Hi & Hout & _).
  exists s1, s2. split; [exact H1|]. split; [exact H2|].
  split; [exact Hi | exact Hout].
Defined.


Lemma X14_witness :
  value (call_method (E := Sim.env) MWarn Sim.lc_url "oops" ["tag1"] Sim.s_url) =
  value (call_method (E := Sim.env) MWarn Sim.lc_url "oops" ["tag1"] Sim.s_down).
Proof.
  exact (X14_remote_result_ignores_state (E := Sim.env) MWarn Sim.lc_url "oops"
           ["tag1"] Sim.s_url Sim.s_down eq_refl
           (Sim_client_ok [] [] false true _) (Sim_client_ok [] [] true true _)).
Defined.
